(** * PrepGenie PYQ search: the browser-side search client and its page

    A shallow embedding of the TypeScript sources that drive the
    "previous year questions" search:

    - [ApiService.searchPYQs]        (services/api.ts)
    - [PYQSearchPage.handleSearch]   (pages/PYQSearchPage.tsx), with the
      filter auto-search effect and the pagination buttons
    - the [PYQSearchResult] interface (types/index.ts)

    together with the server-side pieces the design document describes
    (pagination slicer, result cache, orchestrator), which are written in
    Python and are modelled here from the design document only. *)

From stdpp Require Import base numbers option list strings gmap.
From Stdlib Require Import QArith.QArith_base.

Set Default Proof Using "Type".
Local Open Scope Z_scope.

(** ** JavaScript values *)

Module Js.

(** A JavaScript string is a sequence of UTF-16 code units. *)
Definition jsstring := list N.

(** Embedding of an ASCII literal. *)
Definition lit (s : string) : jsstring :=
  map Ascii.N_of_ascii (String.list_ascii_of_string s).

(** Numbers: the integer-valued numbers and [NaN]. The model is exact
    wherever a double is, that is for magnitudes below 2^53; negative
    zero is identified with zero (both are falsy, both print as 0). *)
Inductive jsnum := JNum (z : Z) | JNaN.

Inductive jsval :=
| VUndef
| VStr (s : jsstring)
| VNum (n : jsnum).

#[global] Instance jsnum_eq_dec : EqDecision jsnum.
Proof. solve_decision. Defined.
#[global] Instance jsval_eq_dec : EqDecision jsval.
Proof. solve_decision. Defined.

(** ToBoolean. *)
Definition truthy (v : jsval) : bool :=
  match v with
  | VUndef => false
  | VStr s => negb (bool_decide (s = []))
  | VNum (JNum z) => negb (z =? 0)
  | VNum JNaN => false
  end.

(** [a || b] *)
Definition js_or (a b : jsval) : jsval := if truthy a then a else b.

(** An object literal keeps its keys in insertion order, which is also
    the order in which it is serialised. *)
Definition jsobject := list (string * jsval).

(** [o.k]; a missing key reads as [undefined]. *)
Fixpoint get (o : jsobject) (k : string) : jsval :=
  match o with
  | [] => VUndef
  | (k', v) :: o' => if String.eqb k k' then v else get o' k
  end.

(** [o?.k] for an optional object. *)
Definition get_opt (o : option jsobject) (k : string) : jsval :=
  match o with
  | None => VUndef
  | Some o => get o k
  end.

Definition has_key (o : jsobject) (k : string) : bool :=
  existsb (fun kv => String.eqb k kv.1) o.

(** [...(c && { k: v })] inside an object literal: spreading a falsy
    primitive contributes no property. *)
Definition spread_and (c : jsval) (o : jsobject) : jsobject :=
  if truthy c then o else [].

(** WhiteSpace and LineTerminator code points, the characters that
    [String.prototype.trim] and [parseInt] strip. *)
Definition is_whitespace (c : N) : bool :=
  (((9 <=? c) && (c <=? 13)) || (c =? 32) || (c =? 160) || (c =? 5760)
   || ((8192 <=? c) && (c <=? 8202)) || (c =? 8232) || (c =? 8233)
   || (c =? 8239) || (c =? 8287) || (c =? 12288) || (c =? 65279))%N.

Fixpoint trimStart (s : jsstring) : jsstring :=
  match s with
  | [] => []
  | c :: s' => if is_whitespace c then trimStart s' else s
  end.

Definition trimEnd (s : jsstring) : jsstring :=
  rev (trimStart (rev s)).

Definition trim (s : jsstring) : jsstring := trimEnd (trimStart s).

(** A string that is empty or made of white space only. *)
Definition blank (s : jsstring) : bool := forallb is_whitespace s.

(** *** parseInt with the radix left out *)

Definition digit_value (c : N) : option N :=
  (if (48 <=? c) && (c <=? 57) then Some (c - 48)
   else if (97 <=? c) && (c <=? 122) then Some (c - 87)
   else if (65 <=? c) && (c <=? 90) then Some (c - 55)
   else None)%N.

Definition radix_digit (R c : N) : option N :=
  match digit_value c with
  | Some d => if (d <? R)%N then Some d else None
  | None => None
  end.

(** The longest prefix of radix-[R] digits, read as a number; [acc] is
    [None] until a first digit has been seen. *)
Fixpoint parse_digits (R : N) (acc : option N) (s : jsstring) : option N :=
  match s with
  | [] => acc
  | c :: s' =>
      match radix_digit R c with
      | Some d => parse_digits R (Some (R * default 0 acc + d)%N) s'
      | None => acc
      end
  end.

Definition parseInt (s : jsstring) : jsnum :=
  let s1 := trimStart s in
  let '(sign, s2) :=
    match s1 with
    | 45%N :: r => (-1, r)
    | 43%N :: r => (1, r)
    | _ => (1, s1)
    end in
  let '(R, s3) :=
    match s2 with
    | 48%N :: x :: r =>
        if ((x =? 120) || (x =? 88))%N then (16%N, r) else (10%N, s2)
    | _ => (10%N, s2)
    end in
  match parse_digits R None s3 with
  | None => JNaN
  | Some n => JNum (sign * Z.of_N n)
  end.

(** *** Number.prototype.toString for integers *)

Fixpoint digits_of (fuel : nat) (n : N) (acc : jsstring) : jsstring :=
  match fuel with
  | O => acc
  | S fuel' =>
      let acc' := (48 + n mod 10)%N :: acc in
      if (n / 10 =? 0)%N then acc' else digits_of fuel' (n / 10)%N acc'
  end.

Definition toString (z : Z) : jsstring :=
  let n := Z.to_N (Z.abs z) in
  let ds := digits_of (S (N.to_nat (N.log2 n))) n [] in
  if z <? 0 then 45%N :: ds else ds.

End Js.

Import Js.

(** ** types/index.ts *)

Module PYQSearchResult.

(** [export interface PYQSearchResult]; the similarity score is a
    fraction, kept as a rational. *)
Record t := {
  id : Z;
  question : jsstring;
  year : Z;
  paper : jsstring;
  subject : jsstring;
  topics : list jsstring;
  marks : Z;
  difficulty : jsstring;
  similarity_score : Q;
}.

End PYQSearchResult.

(** ** The HTTP transport (axios) *)

Module Http.

(** What a rejected request throws. *)
Inductive ApiError :=
| HttpStatus (code : Z)
| NetworkFailure.

Record AxiosResponse (A : Type) := { data : A; status : Z }.
Arguments data {A} _.
Arguments status {A} _.

(** [this.api.post(url, body)] once awaited: it throws or yields a
    response. *)
Definition Post (A : Type) := string -> jsobject -> ApiError + AxiosResponse A.

End Http.

Import Http.

(** ** services/api.ts, the earlier copy

    The repository holds two copies of services/api.ts. This one is the
    earlier: its [searchPYQs] takes no page. *)

Module ApiService.

(** The body built by [searchPYQs]:
    [{ query, limit: filters?.limit || 10,
       ...(filters?.subject && { subject: filters.subject }),
       ...(filters?.year && { year: filters.year }) }] *)
Definition searchRequest (query : jsstring) (filters : option jsobject)
  : jsobject :=
  [("query", VStr query);
   ("limit", js_or (get_opt filters "limit") (VNum (JNum 10)))]
  ++ spread_and (get_opt filters "subject")
       [("subject", get_opt filters "subject")]
  ++ spread_and (get_opt filters "year")
       [("year", get_opt filters "year")].

(** [searchPYQs]: post the body to [/pyqs/search] and hand back
    [response.data]. *)
Definition searchPYQs (post : Post (list PYQSearchResult.t))
    (query : jsstring) (filters : option jsobject)
  : ApiError + list PYQSearchResult.t :=
  match post "/pyqs/search" (searchRequest query filters) with
  | inl e => inl e
  | inr response => inr (data response)
  end.

End ApiService.

(** The copy of services/api.ts that the paginated search page and the
    conversation side bar are written against: its [searchPYQs] also sends
    the page and a cache-busting time stamp ([Date.now()], here the
    argument [now]). *)
Module ApiServiceWithPage.

Definition searchRequest (now : Z) (query : jsstring)
    (filters : option jsobject) : jsobject :=
  [("query", VStr query);
   ("limit", js_or (get_opt filters "limit") (VNum (JNum 10)));
   ("page", js_or (get_opt filters "page") (VNum (JNum 1)));
   ("timestamp", VNum (JNum now))]
  ++ spread_and (get_opt filters "subject")
       [("subject", get_opt filters "subject")]
  ++ spread_and (get_opt filters "year")
       [("year", get_opt filters "year")].

Definition searchPYQs (post : Post (list PYQSearchResult.t)) (now : Z)
    (query : jsstring) (filters : option jsobject)
  : ApiError + list PYQSearchResult.t :=
  match post "/pyqs/search" (searchRequest now query filters) with
  | inl e => inl e
  | inr response => inr (data response)
  end.

End ApiServiceWithPage.

(** ** pages/PYQSearchPage.tsx *)

Module PYQSearchPage.

Record Filters := { subject : jsstring; year : jsstring }.

#[global] Instance Filters_eq_dec : EqDecision Filters.
Proof. solve_decision. Defined.

(** The [useState] cells of the component. *)
Record PageState := {
  query : jsstring;
  results : list PYQSearchResult.t;
  loading : bool;
  filters : Filters;
  showFilters : bool;
  currentPage : Z;
  hasMoreResults : bool;
  totalResults : Z;
}.

Definition initial : PageState :=
  {| query := []; results := []; loading := false;
     filters := {| subject := []; year := [] |};
     showFilters := false; currentPage := 1;
     hasMoreResults := false; totalResults := 0 |}.

Definition setQuery (v : jsstring) (s : PageState) : PageState :=
  {| query := v; results := results s; loading := loading s;
     filters := filters s; showFilters := showFilters s;
     currentPage := currentPage s; hasMoreResults := hasMoreResults s;
     totalResults := totalResults s |}.

Definition setResults (v : list PYQSearchResult.t) (s : PageState) : PageState :=
  {| query := query s; results := v; loading := loading s;
     filters := filters s; showFilters := showFilters s;
     currentPage := currentPage s; hasMoreResults := hasMoreResults s;
     totalResults := totalResults s |}.

Definition setLoading (v : bool) (s : PageState) : PageState :=
  {| query := query s; results := results s; loading := v;
     filters := filters s; showFilters := showFilters s;
     currentPage := currentPage s; hasMoreResults := hasMoreResults s;
     totalResults := totalResults s |}.

Definition setFilters (v : Filters) (s : PageState) : PageState :=
  {| query := query s; results := results s; loading := loading s;
     filters := v; showFilters := showFilters s;
     currentPage := currentPage s; hasMoreResults := hasMoreResults s;
     totalResults := totalResults s |}.

Definition setShowFilters (v : bool) (s : PageState) : PageState :=
  {| query := query s; results := results s; loading := loading s;
     filters := filters s; showFilters := v;
     currentPage := currentPage s; hasMoreResults := hasMoreResults s;
     totalResults := totalResults s |}.

Definition setCurrentPage (v : Z) (s : PageState) : PageState :=
  {| query := query s; results := results s; loading := loading s;
     filters := filters s; showFilters := showFilters s;
     currentPage := v; hasMoreResults := hasMoreResults s;
     totalResults := totalResults s |}.

Definition setHasMoreResults (v : bool) (s : PageState) : PageState :=
  {| query := query s; results := results s; loading := loading s;
     filters := filters s; showFilters := showFilters s;
     currentPage := currentPage s; hasMoreResults := v;
     totalResults := totalResults s |}.

Definition setTotalResults (v : Z) (s : PageState) : PageState :=
  {| query := query s; results := results s; loading := loading s;
     filters := filters s; showFilters := showFilters s;
     currentPage := currentPage s; hasMoreResults := hasMoreResults s;
     totalResults := v |}.

(** [const years = Array.from({ length: 10 }, (_, i) => 2024 - i)] *)
Definition years : list Z := map (fun i => 2024 - Z.of_nat i) (seq 0 10).

Definition subjects : list jsstring :=
  map lit ["General Studies Paper 1"; "General Studies Paper 2";
           "General Studies Paper 3"; "General Studies Paper 4";
           "Essay"; "Optional Subject"]%string.

(** The values the two [<select>] elements can report: the empty
    "All ..." option followed by one option per entry. *)
Definition subject_options : list jsstring := [] :: subjects.
Definition year_options : list jsstring := [] :: map toString years.

(** The object handed to [apiService.searchPYQs]:
    [{ ...(filters.subject && { subject: filters.subject }),
       ...(filters.year && { year: parseInt(filters.year) }),
       page, limit: 10 }] *)
Definition searchFilters (f : Filters) (page : Z) : jsobject :=
  spread_and (VStr (subject f)) [("subject", VStr (subject f))]
  ++ spread_and (VStr (year f)) [("year", VNum (parseInt (year f)))]
  ++ [("page", VNum (JNum page)); ("limit", VNum (JNum 10))].

(** One invocation of [apiService.searchPYQs(query, searchFilters)]. *)
Record ApiCall := { call_query : jsstring; call_filters : jsobject }.

(** *** handleSearch *)

(** [handleSearch(page)] up to its [await]: the guard
    [if (!query.trim()) return;], then [setLoading(true)] and the call.
    [None] is the early return. *)
Definition handleSearch_call (s : PageState) (page : Z)
  : option (PageState * ApiCall) :=
  if negb (truthy (VStr (trim (query s)))) then None
  else Some (setLoading true s,
             {| call_query := query s;
                call_filters := searchFilters (filters s) page |}).

(** The rest of [handleSearch(page)] once the call has settled: the
    [try] body after the [await], the [catch] that only logs, and the
    [finally]. The setters act on the state current at that moment. *)
Definition handleSearch_resume (page : Z)
    (outcome : ApiError + list PYQSearchResult.t) (s : PageState)
  : PageState :=
  let s' :=
    match outcome with
    | inr searchResults =>
        let n := Z.of_nat (length searchResults) in
        setTotalResults ((page - 1) * 10 + n)
          (setHasMoreResults (n =? 10)
             (setCurrentPage page (setResults searchResults s)))
    | inl _ => s
    end in
  setLoading false s'.

(** How an [async] function ends: it returns, or it throws. *)
Inductive Completion :=
| Returned
| Threw (e : ApiError).

(** [handleSearch(page)] run to completion against a search service
    [api], with nothing else happening in between. It yields the final
    state, the calls it made and how it ended. *)
Definition handleSearch
    (api : ApiCall -> ApiError + list PYQSearchResult.t)
    (s : PageState) (page : Z)
  : PageState * list ApiCall * Completion :=
  match handleSearch_call s page with
  | None => (s, [], Returned)
  | Some (s1, call) => (handleSearch_resume page (api call) s1, [call], Returned)
  end.

(** The page wired to the earlier copy of the service, over a transport
    [post]. *)
Definition viaApiService (post : Post (list PYQSearchResult.t))
    (call : ApiCall) : ApiError + list PYQSearchResult.t :=
  ApiService.searchPYQs post (call_query call) (Some (call_filters call)).

(** The body that such a call puts on the wire. *)
Definition request_body (call : ApiCall) : jsobject :=
  ApiService.searchRequest (call_query call) (Some (call_filters call)).

(** The page wired to the copy of the service that sends the page, the
    one it is written against. *)
Definition viaApiServiceWithPage (post : Post (list PYQSearchResult.t))
    (now : Z) (call : ApiCall) : ApiError + list PYQSearchResult.t :=
  ApiServiceWithPage.searchPYQs post now (call_query call)
    (Some (call_filters call)).

(** *** The pagination controls *)

(** [{results.length > 0 && ( ... )}] *)
Definition pagination_visible (s : PageState) : bool :=
  0 <? Z.of_nat (length (results s)).

(** [disabled={currentPage === 1 || loading}] *)
Definition previous_disabled (s : PageState) : bool :=
  (currentPage s =? 1) || loading s.

(** [disabled={!hasMoreResults || loading}] *)
Definition next_disabled (s : PageState) : bool :=
  negb (hasMoreResults s) || loading s.

(** [disabled={loading}] on the search button. *)
Definition search_disabled (s : PageState) : bool := loading s.

(** *** The filter auto-search effect

    [useEffect(..., [filters.subject, filters.year])]: when its guard
    holds it arms a 200 ms timer that runs [performSearch], and it
    returns a clean-up that clears the timer and resets
    [isAutoSearchingRef]. *)

(** [performSearch] once the awaited call has settled; the [finally]
    also resets the ref, which the caller tracks. *)
Definition performSearch_resume
    (outcome : ApiError + list PYQSearchResult.t) (s : PageState)
  : PageState :=
  let s' :=
    match outcome with
    | inr searchResults =>
        let n := Z.of_nat (length searchResults) in
        setTotalResults n
          (setHasMoreResults (n =? 10)
             (setCurrentPage 1 (setResults searchResults s)))
    | inl _ => s
    end in
  setLoading false s'.

(** *** The component as a transition system *)

(** A call that has been issued and has not settled yet. *)
Inductive Pending :=
| ByHandleSearch (page : Z)
| ByPerformSearch.

Record Machine := {
  ui : PageState;
  isAutoSearchingRef : bool;
  (** the armed debounce timer, with the query and filters its closure
      captured *)
  debounceTimer : option (jsstring * Filters);
  (** whether the last run of the effect returned a clean-up *)
  cleanup : bool;
  inflight : list Pending;
  (** every call made so far, oldest first *)
  calls : list ApiCall;
}.

Definition mount : Machine :=
  {| ui := initial; isAutoSearchingRef := false; debounceTimer := None;
     cleanup := false; inflight := []; calls := [] |}.

Definition with_ui (f : PageState -> PageState) (m : Machine) : Machine :=
  {| ui := f (ui m); isAutoSearchingRef := isAutoSearchingRef m;
     debounceTimer := debounceTimer m; cleanup := cleanup m;
     inflight := inflight m; calls := calls m |}.

(** An event handler calling [handleSearch(page)]. *)
Definition invoke_handleSearch (page : Z) (m : Machine) : Machine :=
  match handleSearch_call (ui m) page with
  | None => m
  | Some (s1, call) =>
      {| ui := s1; isAutoSearchingRef := isAutoSearchingRef m;
         debounceTimer := debounceTimer m; cleanup := cleanup m;
         inflight := inflight m ++ [ByHandleSearch page];
         calls := calls m ++ [call] |}
  end.

(** A change of [filters.subject] or [filters.year]: the previous
    clean-up runs, then the effect body. *)
Definition rerun_effect (m : Machine) : Machine :=
  let ref := if cleanup m then false else isAutoSearchingRef m in
  let timer := if cleanup m then None else debounceTimer m in
  let s := ui m in
  if truthy (VStr (trim (query s)))
     && (0 <? Z.of_nat (length (results s))) && negb ref
  then {| ui := s; isAutoSearchingRef := ref;
          debounceTimer := Some (query s, filters s); cleanup := true;
          inflight := inflight m; calls := calls m |}
  else {| ui := s; isAutoSearchingRef := ref;
          debounceTimer := timer; cleanup := false;
          inflight := inflight m; calls := calls m |}.

Definition change_filters (f : Filters) (m : Machine) : Machine :=
  if bool_decide (f = filters (ui m)) then m
  else rerun_effect (with_ui (setFilters f) m).

Inductive Event :=
| TypeQuery (text : jsstring)
| ToggleFilters
| SelectSubject (value : jsstring)
| SelectYear (value : jsstring)
| TimerFires
| PressEnter
| ClickSearch
| ClickPrevious
| ClickNext
| Settles (i : nat) (outcome : ApiError + list PYQSearchResult.t).

(** One event; [None] when the page does not offer it (a disabled or
    hidden button, a value that is not an option, no such timer or
    call). *)
Definition step (m : Machine) (e : Event) : option Machine :=
  let s := ui m in
  match e with
  | TypeQuery text => Some (with_ui (setQuery text) m)
  | ToggleFilters => Some (with_ui (setShowFilters (negb (showFilters s))) m)
  | SelectSubject v =>
      if bool_decide (v ∈ subject_options)
      then Some (change_filters {| subject := v; year := year (filters s) |} m)
      else None
  | SelectYear v =>
      if bool_decide (v ∈ year_options)
      then Some (change_filters {| subject := subject (filters s); year := v |} m)
      else None
  | TimerFires =>
      match debounceTimer m with
      | None => None
      | Some (q, f) =>
          Some {| ui := setLoading true s; isAutoSearchingRef := true;
                  debounceTimer := None; cleanup := cleanup m;
                  inflight := inflight m ++ [ByPerformSearch];
                  calls := calls m ++
                    [{| call_query := q; call_filters := searchFilters f 1 |}] |}
      end
  | PressEnter => Some (invoke_handleSearch 1 m)
  | ClickSearch =>
      if search_disabled s then None else Some (invoke_handleSearch 1 m)
  | ClickPrevious =>
      if pagination_visible s && negb (previous_disabled s)
      then Some (invoke_handleSearch (currentPage s - 1) m) else None
  | ClickNext =>
      if pagination_visible s && negb (next_disabled s)
      then Some (invoke_handleSearch (currentPage s + 1) m) else None
  | Settles i outcome =>
      match inflight m !! i with
      | None => None
      | Some (ByHandleSearch page) =>
          Some {| ui := handleSearch_resume page outcome s;
                  isAutoSearchingRef := isAutoSearchingRef m;
                  debounceTimer := debounceTimer m; cleanup := cleanup m;
                  inflight := delete i (inflight m); calls := calls m |}
      | Some ByPerformSearch =>
          Some {| ui := performSearch_resume outcome s;
                  isAutoSearchingRef := false;
                  debounceTimer := debounceTimer m; cleanup := cleanup m;
                  inflight := delete i (inflight m); calls := calls m |}
      end
  end.

(** The states the page can be brought into. *)
Inductive reachable : Machine -> Prop :=
| reachable_mount : reachable mount
| reachable_step m e m' :
    reachable m -> step m e = Some m' -> reachable m'.

Fixpoint run (m : Machine) (es : list Event) : option Machine :=
  match es with
  | [] => Some m
  | e :: es' =>
      match step m e with
      | None => None
      | Some m' => run m' es'
      end
  end.

(** The page number a call carries. *)
Definition call_page (c : ApiCall) : jsval := get (call_filters c) "page".

End PYQSearchPage.

(** ** The earlier search page, without pagination

    The repository keeps a second PYQSearchPage.tsx whose [handleSearch]
    takes no page and sets the results only. *)

Module PYQSearchPageBasic.

Record PageState := {
  query : jsstring;
  results : list PYQSearchResult.t;
  loading : bool;
  filters : PYQSearchPage.Filters;
  showFilters : bool;
}.

Definition setResults (v : list PYQSearchResult.t) (s : PageState) : PageState :=
  {| query := query s; results := v; loading := loading s;
     filters := filters s; showFilters := showFilters s |}.

Definition setLoading (v : bool) (s : PageState) : PageState :=
  {| query := query s; results := results s; loading := v;
     filters := filters s; showFilters := showFilters s |}.

(** [{ ...(filters.subject && { subject: filters.subject }),
       ...(filters.year && { year: parseInt(filters.year) }) }] *)
Definition searchFilters (f : PYQSearchPage.Filters) : jsobject :=
  spread_and (VStr (PYQSearchPage.subject f))
    [("subject", VStr (PYQSearchPage.subject f))]
  ++ spread_and (VStr (PYQSearchPage.year f))
       [("year", VNum (parseInt (PYQSearchPage.year f)))].

Definition handleSearch
    (api : PYQSearchPage.ApiCall -> ApiError + list PYQSearchResult.t)
    (s : PageState)
  : PageState * list PYQSearchPage.ApiCall * PYQSearchPage.Completion :=
  if negb (truthy (VStr (trim (query s)))) then (s, [], PYQSearchPage.Returned)
  else
    let call := {| PYQSearchPage.call_query := query s;
                   PYQSearchPage.call_filters := searchFilters (filters s) |} in
    let s1 := setLoading true s in
    let s2 := match api call with
              | inr searchResults => setResults searchResults s1
              | inl _ => s1
              end in
    (setLoading false s2, [call], PYQSearchPage.Returned).

End PYQSearchPageBasic.

(** ** The search service behind [/pyqs/search]

    The Python service (app/services/pyq_vector_service.py) is described
    by the design document and by the optimisation notes; its source is
    not at hand, so every definition of this module follows the design
    document. *)

Module Backend.

(** Modelled from the spec: the error taxonomy of section 7 (the
    caller-visible kinds), absent from the sources at hand. *)
Inductive ErrorKind :=
| InvalidQuery
| EmbeddingUnavailable
| IndexUnavailable.

(** Modelled from the spec: the HTTP-style status of a failure,
    "400 for InvalidQuery, 502/503 for any *Unavailable". *)
Definition status_of (k : ErrorKind) : Z :=
  match k with
  | InvalidQuery => 400
  | EmbeddingUnavailable => 503
  | IndexUnavailable => 503
  end.

(** Modelled from the spec: the kind a caller reads off a failed request,
    the inverse of [status_of] where it is unambiguous. *)
Definition kind_of (e : ApiError) : option ErrorKind :=
  match e with
  | HttpStatus 400 => Some InvalidQuery
  | _ => None
  end.

(** Modelled from the spec: SearchRequest of section 3, with the
    filters inlined. *)
Record SearchRequest := {
  query : jsstring;
  subject : option jsstring;
  year : option Z;
  page : Z;
  limit : Z;
}.

(** Modelled from the spec: the time-to-live of a cache entry, five
    minutes, in seconds. *)
Definition TTL : Z := 300.

(** Modelled from the spec: CacheEntry of section 3, over the items
    [A] it stores. *)
Record CacheEntry (A : Type) := {
  fingerprint : string;
  results : list A;
  createdAt : Z;
}.
Arguments fingerprint {A} _.
Arguments results {A} _.
Arguments createdAt {A} _.

(** Modelled from the spec: [get(fingerprint)] of section 4.5, "an
    entry is treated as absent if now - createdAt > TTL, even if still
    physically present". *)
Definition cache_get {A} (now : Z) (fp : string)
    (cache : gmap string (CacheEntry A)) : option (CacheEntry A) :=
  match cache !! fp with
  | Some entry => if now - createdAt entry >? TTL then None else Some entry
  | None => None
  end.

(** Modelled from the spec: [put(fingerprint, results)] of section 4.5,
    which overwrites with a freshly time-stamped entry. *)
Definition cache_put {A} (now : Z) (fp : string) (rs : list A)
    (cache : gmap string (CacheEntry A)) : gmap string (CacheEntry A) :=
  <[fp := {| fingerprint := fp; results := rs; createdAt := now |}]> cache.

(** Modelled from the spec: the Pagination Slicer of section 4.6, the
    window of up to [limit] items starting at offset [(page-1)*limit]. *)
Definition slice {A} (rs : list A) (page limit : Z) : list A :=
  take (Z.to_nat limit) (drop (Z.to_nat ((page - 1) * limit)) rs).

(** Modelled from the spec: step 1 of section 4.7, with the conditions
    of InvalidQuery in section 7. *)
Definition validate (r : SearchRequest) : bool :=
  negb (blank (query r)) && (1 <=? page r) && (1 <=? limit r).

(** Modelled from the spec: the request of section 6,
    [{ query, subject?, year?, page? = 1, limit? = 10 }], read from a
    posted body. *)
Definition int_field (body : jsobject) (k : string) (dflt : Z) : option Z :=
  match get body k with
  | VUndef => Some dflt
  | VNum (JNum z) => Some z
  | _ => None
  end.

Definition read_request (body : jsobject) : option SearchRequest :=
  match get body "query", int_field body "page" 1, int_field body "limit" 10 with
  | VStr q, Some p, Some l =>
      Some {| query := q;
              subject := match get body "subject" with
                         | VStr s => Some s
                         | _ => None
                         end;
              year := match get body "year" with
                      | VNum (JNum y) => Some y
                      | _ => None
                      end;
              page := p; limit := l |}
  | _, _, _ => None
  end.

Section Orchestrator.

(** The fingerprint of a query and its filters, and the retrieval
    pipeline (expansion, embedding, vector query, re-ranking), both
    left open. *)
Variable fingerprintOf : jsstring -> option jsstring -> option Z -> string.
Variable executePipeline : SearchRequest -> ErrorKind + list PYQSearchResult.t.

(** Modelled from the spec: the control flow of section 4.7. *)
Definition search (now : Z) (cache : gmap string (CacheEntry PYQSearchResult.t))
    (r : SearchRequest)
  : gmap string (CacheEntry PYQSearchResult.t)
    * (ErrorKind + list PYQSearchResult.t) :=
  if negb (validate r) then (cache, inl InvalidQuery)
  else
    let fp := fingerprintOf (query r) (subject r) (year r) in
    match cache_get now fp cache with
    | Some entry => (cache, inr (slice (results entry) (page r) (limit r)))
    | None =>
        match executePipeline r with
        | inl k => (cache, inl k)
        | inr full =>
            (cache_put now fp full cache, inr (slice full (page r) (limit r)))
        end
    end.

(** Modelled from the spec: the Search API of section 6 as the
    transport sees it, at one moment of the server. *)
Definition endpoint (now : Z) (cache : gmap string (CacheEntry PYQSearchResult.t))
  : Post (list PYQSearchResult.t) :=
  fun url body =>
    if negb (String.eqb url "/pyqs/search") then inl (HttpStatus 404)
    else
      match read_request body with
      | None => inl (HttpStatus 400)
      | Some r =>
          match (search now cache r).2 with
          | inl k => inl (HttpStatus (status_of k))
          | inr items => inr {| data := items; status := 200 |}
          end
      end.

End Orchestrator.

End Backend.

(** ** Vocabulary of the properties *)

(** A handler ends by surfacing an error of kind [k] to its caller. *)
Definition rejected_with (k : Backend.ErrorKind)
    (c : PYQSearchPage.Completion) : Prop :=
  exists e, c = PYQSearchPage.Threw e /\ Backend.kind_of e = Some k.

(** A call that carries a page number of at least 1. *)
Definition page_at_least_one (c : PYQSearchPage.ApiCall) : Prop :=
  exists p, PYQSearchPage.call_page c = VNum (JNum p) /\ 1 <= p.

Definition pending_page_ok (p : PYQSearchPage.Pending) : Prop :=
  match p with
  | PYQSearchPage.ByHandleSearch page => 1 <= page
  | PYQSearchPage.ByPerformSearch => True
  end.

(** What every state of the page satisfies: the page shown, the pages of
    the calls still awaited and the pages of all calls made are at least
    1. *)
Definition page_invariant (m : PYQSearchPage.Machine) : Prop :=
  1 <= PYQSearchPage.currentPage (PYQSearchPage.ui m)
  /\ Forall pending_page_ok (PYQSearchPage.inflight m)
  /\ Forall page_at_least_one (PYQSearchPage.calls m).

(** ** Sample data *)

Import PYQSearchPage.

Module Samples.

Definition item (i : Z) : PYQSearchResult.t :=
  {| PYQSearchResult.id := i;
     PYQSearchResult.question := lit "Discuss the role of ethics in governance.";
     PYQSearchResult.year := 2020;
     PYQSearchResult.paper := lit "GS4";
     PYQSearchResult.subject := lit "General Studies Paper 4";
     PYQSearchResult.topics := [lit "ethics"];
     PYQSearchResult.marks := 10;
     PYQSearchResult.difficulty := lit "medium";
     PYQSearchResult.similarity_score := (13 # 20)%Q |}.

(** Items numbered [1 .. n]. *)
Definition items (n : nat) : list PYQSearchResult.t :=
  map (fun i => item (Z.of_nat i)) (seq 1 n).

Definition ids (l : list PYQSearchResult.t) : list Z :=
  map PYQSearchResult.id l.

(** A fingerprint: the query text, then the filters. *)
Definition text (s : jsstring) : string :=
  String.string_of_list_ascii (map Ascii.ascii_of_N s).

Definition fingerprintOf (q : jsstring) (subject : option jsstring)
    (year : option Z) : string :=
  (text q +:+ "|" +:+ text (default [] subject) +:+ "|"
   +:+ text (default [] (toString <$> year)))%string.

(** A pipeline that is down: whatever is answered comes from the cache. *)
Definition pipeline_down (r : Backend.SearchRequest)
  : Backend.ErrorKind + list PYQSearchResult.t :=
  inl Backend.IndexUnavailable.

(** A pipeline that retrieves [n] items whatever the query. *)
Definition pipeline_of (n : nat) (r : Backend.SearchRequest)
  : Backend.ErrorKind + list PYQSearchResult.t :=
  inr (items n).

(** A cache holding 25 results for the query "ethics", stored at time 0. *)
Definition cache25 : gmap string (Backend.CacheEntry PYQSearchResult.t) :=
  Backend.cache_put 0 (fingerprintOf (lit "ethics") None None) (items 25) ∅.

(** The server at time 60 with that cache. *)
Definition server25 : Post (list PYQSearchResult.t) :=
  Backend.endpoint fingerprintOf pipeline_down 60 cache25.

(** The page after the user has typed "ethics". *)
Definition typed_ethics : PageState := setQuery (lit "ethics") initial.

(** The page after the user has typed three spaces. *)
Definition typed_spaces : PageState := setQuery (lit "   ") initial.

(** A service that always answers with [n] items. *)
Definition answers (n : nat) (c : ApiCall) : ApiError + list PYQSearchResult.t :=
  inr (items n).

(** A service that is unreachable. *)
Definition unreachable (c : ApiCall) : ApiError + list PYQSearchResult.t :=
  inl NetworkFailure.

(** A session: a search that fills page 1, then Next, which brings a
    short second page. *)
Definition browse : list Event :=
  [TypeQuery (lit "ethics"); PressEnter; Settles 0 (inr (items 10));
   ClickNext; Settles 0 (inr (items 4))].

Definition after_browse : Machine := default mount (run mount browse).

End Samples.

(** ** What the search page renders *)

Module PYQSearchPageView.

(** [{!loading && results.length === 0 && query && ( ... )}], the
    "No AI matches found" panel. *)
Definition no_matches_visible (s : PageState) : bool :=
  negb (loading s) && (Z.of_nat (length (results s)) =? 0)
  && truthy (VStr (query s)).

(** [{!query && results.length === 0 && ( ... )}], the introduction with
    the example searches. *)
Definition intro_visible (s : PageState) : bool :=
  negb (truthy (VStr (query s))) && (Z.of_nat (length (results s)) =? 0).

(** [{loading && results.length > 0 && ( ... )}], the overlay shown while
    results are being replaced. *)
Definition overlay_visible (s : PageState) : bool :=
  loading s && (0 <? Z.of_nat (length (results s))).

End PYQSearchPageView.

(** ** More vocabulary *)

(** The flag and the counter agree with the results shown. *)
Definition display_consistent (s : PageState) : Prop :=
  hasMoreResults s = (Z.of_nat (length (results s)) =? 10)
  /\ totalResults s = (currentPage s - 1) * 10 + Z.of_nat (length (results s)).

(** A call with a query that is not blank, asking for 10 items. *)
Definition call_well_formed (c : ApiCall) : Prop :=
  blank (call_query c) = false
  /\ get (call_filters c) "limit" = VNum (JNum 10).

(** An armed debounce timer holds a query that is not blank and the
    filters now selected, and its clean-up is registered. *)
Definition timer_consistent (m : Machine) : Prop :=
  forall q f, debounceTimer m = Some (q, f) ->
    blank q = false /\ f = filters (ui m) /\ cleanup m = true.

Definition calls_invariant (m : Machine) : Prop :=
  timer_consistent m /\ Forall call_well_formed (calls m).

(** While the loading flag is up, some call is awaited. *)
Definition loading_invariant (m : Machine) : Prop :=
  loading (ui m) = true -> inflight m <> [].

(** ** More sample sessions *)

Module Scenarios.

(** Two searches started one after the other (Enter twice); the first one
    settles while the second is still awaited. *)
Definition overlapping : list Event :=
  [TypeQuery (lit "ethics"); PressEnter; PressEnter;
   Settles 0 (inr (Samples.items 3))].

Definition after_overlapping : Machine := default mount (run mount overlapping).

(** A full first page, then the year filter is set to 2021: the debounce
    timer is armed. *)
Definition filtering : list Event :=
  [TypeQuery (lit "ethics"); PressEnter; Settles 0 (inr (Samples.items 10));
   SelectYear (lit "2021")].

Definition after_filtering : Machine := default mount (run mount filtering).

(** The timer of [after_filtering] has fired. *)
Definition after_timer : Machine :=
  default mount (step after_filtering TimerFires).

End Scenarios.

(** ** The interceptors of the axios instance (services/api.ts, constructor) *)

Module Interceptors.

Record RequestConfig := {
  url : option jsstring;
  headers : gmap string jsstring;
}.

(** What the interceptors reach in the browser: [localStorage] and
    [window.location.href]. *)
Record Browser := {
  localStorage : gmap string jsstring;
  href : jsstring;
}.

(** The two things the response interceptor reads off an error:
    [error.response?.status] and [error.config?.url]. *)
Record AxiosError := {
  response_status : option Z;
  config_url : option jsstring;
}.

(** [sub] is a prefix of [s]. *)
Fixpoint startsWith (s sub : jsstring) : bool :=
  match sub, s with
  | [], _ => true
  | c :: sub', d :: s' => (c =? d)%N && startsWith s' sub'
  | _ :: _, [] => false
  end.

(** [s.includes(sub)] *)
Fixpoint includes (s sub : jsstring) : bool :=
  startsWith s sub
  || match s with
     | [] => false
     | _ :: s' => includes s' sub
     end.

(** The request interceptor:
    [const token = localStorage.getItem('access_token');
     if (token) config.headers.Authorization = `Bearer ${token}`;
     return config;] *)
Definition onRequest (b : Browser) (config : RequestConfig) : RequestConfig :=
  match localStorage b !! "access_token" with
  | Some token =>
      if truthy (VStr token)
      then {| url := url config;
              headers := <["Authorization" := lit "Bearer " ++ token]> (headers config) |}
      else config
  | None => config
  end.

(** [!error.config?.url?.includes(part)]: a missing url makes it true. *)
Definition url_lacks (error : AxiosError) (part : jsstring) : bool :=
  match config_url error with
  | None => true
  | Some u => negb (includes u part)
  end.

(** The response interceptor on an error; it then rejects with the same
    error. *)
Definition onResponseError (error : AxiosError) (b : Browser) : Browser :=
  if bool_decide (response_status error = Some 401)
     && url_lacks error (lit "/auth/login")
     && url_lacks error (lit "/auth/register")
  then {| localStorage := delete "user" (delete "access_token" (localStorage b));
          href := lit "/login" |}
  else b.

(** The error axios builds for a request to [u] that failed with [e]. *)
Definition as_error (u : jsstring) (e : ApiError) : AxiosError :=
  {| response_status := match e with
                        | HttpStatus code => Some code
                        | NetworkFailure => None
                        end;
     config_url := Some u |}.

(** One request through the instance: the request interceptor prepares
    the config, the network answers it, the response interceptor sees a
    failure. The headers given are those of the call (the instance's
    [Content-Type] or the override of the call). *)
Definition send {A} (network : RequestConfig -> ApiError + A)
    (u : jsstring) (hs : gmap string jsstring) (b : Browser)
  : Browser * (ApiError + A) :=
  match network (onRequest b {| url := Some u; headers := hs |}) with
  | inl e => (onResponseError (as_error u e) b, inl e)
  | inr response => (b, inr response)
  end.

End Interceptors.

(** ** contexts/AuthContext.tsx *)

Module Types.

Record User := {
  id : jsstring;
  email : jsstring;
  first_name : jsstring;
  last_name : jsstring;
  createdAt : jsstring;
  isActive : bool;
}.

Record AuthResponse := {
  access_token : jsstring;
  token_type : jsstring;
  user : User;
}.

End Types.

Module AuthContext.

Import Interceptors.

(** The two [useState] cells of [AuthProvider]. *)
Record AuthState := { user : option Types.User; loading : bool }.

(** [useState<User | null>(null)], [useState(true)] *)
Definition initial : AuthState := {| user := None; loading := true |}.

(** [isAuthenticated: !!user] *)
Definition isAuthenticated (a : AuthState) : bool := bool_decide (is_Some (user a)).

Definition json_headers : gmap string jsstring :=
  {[ "Content-Type"%string := lit "application/json" ]}.

Definition form_headers : gmap string jsstring :=
  {[ "Content-Type"%string := lit "application/x-www-form-urlencoded" ]}.

Definition clear_session (b : Browser) : Browser :=
  {| localStorage := delete "user" (delete "access_token" (localStorage b));
     href := href b |}.

(** [logout]: both keys are removed and the user is reset. *)
Definition logout (w : Browser * AuthState) : Browser * AuthState :=
  (clear_session w.1, {| user := None; loading := loading w.2 |}).

(** What [JSON.parse] makes of the saved user: it throws, or it yields a
    falsy value ([null], [false], [0], the empty string), or it yields a
    truthy value, which the provider takes for the user it is declared to
    be. *)
Inductive Parsed :=
| ParseError
| ParsedFalsy
| ParsedUser (u : Types.User).

(** The user that [setUser(JSON.parse(savedUser))] leaves in the state:
    a falsy value counts as no user. *)
Definition restored (parsed : Parsed) : option Types.User :=
  match parsed with
  | ParsedUser u => Some u
  | ParsedFalsy => None
  | ParseError => None
  end.

Section WithJson.

(** [JSON.stringify] on users and [JSON.parse] on the saved text. *)
Variable stringify : Types.User -> jsstring.
Variable parse : jsstring -> Parsed.

(** [login(credentials)]: [apiService.login] posts to [/auth/login]; on
    success the token and the user are stored and the user is set, on
    failure the error is thrown again. *)
Definition login (network : RequestConfig -> ApiError + Types.AuthResponse)
    (w : Browser * AuthState)
  : Browser * AuthState * PYQSearchPage.Completion :=
  match send network (lit "/auth/login") form_headers w.1 with
  | (b, inr response) =>
      ({| localStorage :=
            <["user" := stringify (Types.user response)]>
              (<["access_token" := Types.access_token response]> (localStorage b));
          href := href b |},
       {| user := Some (Types.user response); loading := loading w.2 |},
       PYQSearchPage.Returned)
  | (b, inl e) => (b, w.2, PYQSearchPage.Threw e)
  end.

(** [initializeAuth], run once on mount: with a token and a saved user
    the saved user is parsed and set, and the token checked with
    [getCurrentUser] ([GET /auth/me]); a parse error or a failed check
    clears the session, while a saved text that parses to a falsy value
    sets no user and, the check passing, clears nothing. In every case
    loading ends. *)
Definition initializeAuth (network : RequestConfig -> ApiError + Types.User)
    (w : Browser * AuthState) : Browser * AuthState :=
  let b := w.1 in
  match localStorage b !! "access_token", localStorage b !! "user" with
  | Some token, Some savedUser =>
      if truthy (VStr token) && truthy (VStr savedUser) then
        match parse savedUser with
        | ParseError => (clear_session b, {| user := None; loading := false |})
        | parsed =>
            match send network (lit "/auth/me") json_headers b with
            | (b', inr _) => (b', {| user := restored parsed; loading := false |})
            | (b', inl _) => (clear_session b', {| user := None; loading := false |})
            end
        end
      else (b, {| user := user w.2; loading := false |})
  | _, _ => (b, {| user := user w.2; loading := false |})
  end.

End WithJson.

End AuthContext.

(** ** Sample sessions *)

Module SessionSamples.

Definition alice : Types.User :=
  {| Types.id := lit "7"; Types.email := lit "alice@example.org";
     Types.first_name := lit "Alice"; Types.last_name := lit "Rao";
     Types.createdAt := lit "2025-01-01"; Types.isActive := true |}.

(** Stand-ins for [JSON.stringify] and [JSON.parse] on the one user of the
    samples; the text "null" parses to [null]. *)
Definition show (u : Types.User) : jsstring := Types.email u.

Definition read (text : jsstring) : AuthContext.Parsed :=
  if bool_decide (text = Types.email alice) then AuthContext.ParsedUser alice
  else if bool_decide (text = lit "null") then AuthContext.ParsedFalsy
  else AuthContext.ParseError.

(** A server that accepts the login and issues the token "abc". *)
Definition accepts (config : Interceptors.RequestConfig)
  : ApiError + Types.AuthResponse :=
  inr {| Types.access_token := lit "abc"; Types.token_type := lit "bearer";
         Types.user := alice |}.

(** A server that answers every request with 401. *)
Definition refuses {A : Type} (config : Interceptors.RequestConfig)
  : ApiError + A :=
  inl (HttpStatus 401).

(** A server that accepts exactly the bearer token "abc". *)
Definition checks_token (config : Interceptors.RequestConfig)
  : ApiError + Types.User :=
  if bool_decide (Interceptors.headers config !! "Authorization"
                  = Some (lit "Bearer abc"))
  then inr alice else inl (HttpStatus 401).

Definition signed_out : Interceptors.Browser :=
  {| Interceptors.localStorage := ∅; Interceptors.href := lit "/login" |}.

Definition signed_in : Interceptors.Browser :=
  {| Interceptors.localStorage :=
       {[ "access_token"%string := lit "abc";
          "user"%string := show alice ]};
     Interceptors.href := lit "/dashboard" |}.

Definition any_request : Interceptors.RequestConfig :=
  {| Interceptors.url := Some (lit "/pyqs/search");
     Interceptors.headers := AuthContext.json_headers |}.

(** A stored session whose saved user is the text "null". *)
Definition saved_null : Interceptors.Browser :=
  {| Interceptors.localStorage :=
       {[ "access_token"%string := lit "abc";
          "user"%string := lit "null" ]};
     Interceptors.href := lit "/dashboard" |}.

(** A stored session whose token the server no longer accepts. *)
Definition stale_token : Interceptors.Browser :=
  {| Interceptors.localStorage :=
       {[ "access_token"%string := lit "old";
          "user"%string := show alice ]};
     Interceptors.href := lit "/dashboard" |}.

End SessionSamples.

(** ** Comparing request bodies *)

(** The body [o] without the keys [ks]. *)
Definition without_keys (ks : list string) (o : jsobject) : jsobject :=
  List.filter (fun kv => negb (existsb (String.eqb kv.1) ks)) o.

(** ** services/api.ts (second copy): chat *)

Module ChatApi.

Inductive Role := RoleUser | RoleAssistant.

(** [export interface ChatMessage] *)
Record ChatMessage := {
  id : jsstring;
  conversation_id : option jsstring;
  conversation_uuid : option jsstring;
  role : Role;
  content : jsstring;
  timestamp : jsstring;
  tokens_used : option Z;
}.

(** [this.api.get(url)] once awaited. *)
Definition Get (A : Type) := jsstring -> ApiError + AxiosResponse A.

(** A number inside a template literal. *)
Definition template_number (n : jsnum) : jsstring :=
  match n with
  | JNum z => toString z
  | JNaN => lit "NaN"
  end.

(** [getChatHistory(limit: number = 50)]:
    [GET `/chat/history?limit=${limit}`], then [response.data]. *)
Definition getChatHistory (get : Get (list ChatMessage)) (limit : option jsnum)
  : ApiError + list ChatMessage :=
  match get (lit "/chat/history?limit="
             ++ template_number (default (JNum 50) limit)) with
  | inl e => inl e
  | inr response => inr (data response)
  end.

(** [l.slice(0, end)]: a negative [end] counts from the end of the list,
    [NaN] is 0, and the result stops at the end of the list. *)
Definition slice_to {A} (l : list A) (end_ : jsnum) : list A :=
  let len := Z.of_nat (length l) in
  let relativeEnd := match end_ with JNum z => z | JNaN => 0 end in
  let final := if relativeEnd <? 0 then Z.max (len + relativeEnd) 0
               else Z.min relativeEnd len in
  take (Z.to_nat final) l.

Definition same_conversation (conversationId : jsstring) (msg : ChatMessage) : bool :=
  bool_decide (conversation_uuid msg = Some conversationId).

(** [getConversationMessages(conversationId, limit = 50)]:
    [const allHistory = await this.getChatHistory(200);
     return allHistory.filter(msg => msg.conversation_uuid === conversationId)
                      .slice(0, limit);] *)
Definition getConversationMessages (get : Get (list ChatMessage))
    (conversationId : jsstring) (limit : option jsnum)
  : ApiError + list ChatMessage :=
  match getChatHistory get (Some (JNum 200)) with
  | inl e => inl e
  | inr allHistory =>
      inr (slice_to (List.filter (same_conversation conversationId) allHistory)
             (default (JNum 50) limit))
  end.

End ChatApi.

Module ChatSamples.

Definition message (n : Z) (conversation : option jsstring) : ChatApi.ChatMessage :=
  {| ChatApi.id := toString n; ChatApi.conversation_id := None;
     ChatApi.conversation_uuid := conversation; ChatApi.role := ChatApi.RoleUser;
     ChatApi.content := lit "hello"; ChatApi.timestamp := lit "2025-01-01T00:00:00";
     ChatApi.tokens_used := None |}.

Definition history : list ChatApi.ChatMessage :=
  [message 1 (Some (lit "a")); message 2 (Some (lit "b")); message 3 None;
   message 4 (Some (lit "a")); message 5 (Some (lit "a"))].

(** A server that answers the history request for 200 messages only. *)
Definition server : ChatApi.Get (list ChatApi.ChatMessage) :=
  fun u => if bool_decide (u = lit "/chat/history?limit=200")
           then inr {| data := history; status := 200 |}
           else inl (HttpStatus 404).

End ChatSamples.

(** ** JSON payloads *)

Module Json.

#[local] Unset Elimination Schemes.

(** A parsed JSON value; numbers are the integers (see [jsnum]), and an
    object lists each of its keys once. *)
Inductive json :=
| JNull
| JBool (b : bool)
| JNumber (z : Z)
| JString (s : jsstring)
| JArray (items : list json)
| JObject (fields : list (string * json)).

#[local] Set Elimination Schemes.

(** ToBoolean: arrays and objects are truthy. *)
Definition truthy_json (v : json) : bool :=
  match v with
  | JNull => false
  | JBool b => b
  | JNumber z => negb (z =? 0)
  | JString s => negb (bool_decide (s = []))
  | JArray _ => true
  | JObject _ => true
  end.

(** [v.k] for a value that is neither [null] nor [undefined] and a key
    no prototype defines: only an object can have it. [None] is
    [undefined]. *)
Definition field (v : json) (k : string) : option json :=
  match v with
  | JObject fields => snd <$> List.find (fun kv => String.eqb k kv.1) fields
  | _ => None
  end.

(** [items.join(sep)] on texts. *)
Fixpoint join (sep : jsstring) (texts : list jsstring) : jsstring :=
  match texts with
  | [] => []
  | t :: rest =>
      match rest with
      | [] => t
      | _ :: _ => t ++ sep ++ join sep rest
      end
  end.

Inductive Thrown := TypeError.

(** Whether an object has a key [toString] of its own. In a parsed
    payload such a value is never a function, so that converting the
    object to a string finds nothing to call and throws. *)
Definition own_toString (fields : list (string * json)) : bool :=
  existsb (fun kv => String.eqb "toString" kv.1) fields.

(** [String(v)]: an object prints as [[object Object]] unless it has a
    [toString] of its own, in which case the conversion throws; an array
    prints its elements separated by commas, [null] as nothing, and throws
    when printing an element does. *)
Fixpoint to_String (v : json) : Thrown + jsstring :=
  match v with
  | JNull => inr (lit "null")
  | JBool true => inr (lit "true")
  | JBool false => inr (lit "false")
  | JNumber z => inr (toString z)
  | JString s => inr s
  | JArray items =>
      match
        (fix texts (l : list json) : Thrown + list jsstring :=
           match l with
           | [] => inr []
           | x :: l' =>
               match (match x with JNull => inr [] | _ => to_String x end) with
               | inl t => inl t
               | inr text =>
                   match texts l' with
                   | inl t => inl t
                   | inr rest => inr (text :: rest)
                   end
               end
           end) items
      with
      | inl t => inl t
      | inr ts => inr (join (lit ",") ts)
      end
  | JObject fields =>
      if own_toString fields then inl TypeError else inr (lit "[object Object]")
  end.

(** The text [join] gives an element: nothing for [null], its string
    otherwise. *)
Definition join_text (v : json) : Thrown + jsstring :=
  match v with
  | JNull => inr []
  | _ => to_String v
  end.

(** The texts of the elements, up to the first that throws. *)
Fixpoint join_texts (l : list json) : Thrown + list jsstring :=
  match l with
  | [] => inr []
  | x :: l' =>
      match join_text x with
      | inl t => inl t
      | inr text =>
          match join_texts l' with
          | inl t => inl t
          | inr rest => inr (text :: rest)
          end
      end
  end.

(** [values.join(sep)] *)
Definition join_values (sep : jsstring) (values : list json) : Thrown + jsstring :=
  match join_texts values with
  | inl t => inl t
  | inr ts => inr (join sep ts)
  end.

(** No object of the value, at any depth, has a [toString] of its own. *)
Fixpoint plain (v : json) : bool :=
  match v with
  | JArray items => forallb plain items
  | JObject fields =>
      negb (own_toString fields)
      && forallb (fun kv => match kv with (_, w) => plain w end) fields
  | _ => true
  end.

(** Induction over a value and the values inside it. *)
Section Induction.

Variable P : json -> Prop.
Hypothesis Hnull : P JNull.
Hypothesis Hbool : forall b, P (JBool b).
Hypothesis Hnumber : forall z, P (JNumber z).
Hypothesis Hstring : forall s, P (JString s).
Hypothesis Harray : forall items, Forall P items -> P (JArray items).
Hypothesis Hobject :
  forall fields, Forall (fun kv => P kv.2) fields -> P (JObject fields).

Fixpoint json_nested_ind (v : json) : P v :=
  match v with
  | JNull => Hnull
  | JBool b => Hbool b
  | JNumber z => Hnumber z
  | JString s => Hstring s
  | JArray items =>
      Harray items
        ((fix all (l : list json) : Forall P l :=
            match l with
            | [] => @List.Forall_nil _ P
            | x :: l' => @List.Forall_cons _ P x l' (json_nested_ind x) (all l')
            end) items)
  | JObject fields =>
      Hobject fields
        ((fix all (l : list (string * json)) : Forall (fun kv => P kv.2) l :=
            match l with
            | [] => @List.Forall_nil _ (fun kv => P kv.2)
            | kv :: l' =>
                @List.Forall_cons _ (fun kv => P kv.2) kv l'
                  (match kv return P kv.2 with (k, w) => json_nested_ind w end)
                  (all l')
            end) fields)
  end.

End Induction.

End Json.

(** ** pages/RegisterPage.tsx *)

Module RegisterPage.

Import Json.

Record FormData := {
  email : jsstring;
  password : jsstring;
  confirmPassword : jsstring;
  first_name : jsstring;
  last_name : jsstring;
}.

(** The [useState] cells; [error] is declared a string, and receives
    whatever the response carries. *)
Record PageState := {
  formData : FormData;
  showPassword : bool;
  loading : bool;
  error : json;
}.

Definition initial : PageState :=
  {| formData := {| email := []; password := []; confirmPassword := [];
                    first_name := []; last_name := [] |};
     showPassword := false; loading := false; error := JString [] |}.

Definition setLoading (v : bool) (s : PageState) : PageState :=
  {| formData := formData s; showPassword := showPassword s;
     loading := v; error := error s |}.

Definition setError (v : json) (s : PageState) : PageState :=
  {| formData := formData s; showPassword := showPassword s;
     loading := loading s; error := v |}.

(** The argument of [register]. *)
Record RegisterRequest := {
  req_email : jsstring;
  req_password : jsstring;
  req_first_name : jsstring;
  req_last_name : jsstring;
}.

(** [navigate(to, { state: { message, email } })] *)
Record Navigation := {
  to : jsstring;
  state_message : jsstring;
  state_email : jsstring;
}.

(** What [register] throws, as far as the handler looks at it:
    [err.response?.data], [None] when there is none. *)
Record Failure := { response_data : option json }.

(** [String(e)] as a value. *)
Definition String_value (e : json) : Thrown + json :=
  match to_String e with
  | inl t => inl t
  | inr text => inr (JString text)
  end.

(** The callback of [data.detail.map]:
    [(e) => e.msg || e.message || String(e)]. Reading a property of
    [null] throws, and so may [String(e)]. *)
Definition item_message (e : json) : Thrown + json :=
  match e with
  | JNull => inl TypeError
  | _ =>
      match field e "msg" with
      | Some v =>
          if truthy_json v then inr v
          else match field e "message" with
               | Some w => if truthy_json w then inr w else String_value e
               | None => String_value e
               end
      | None =>
          match field e "message" with
          | Some w => if truthy_json w then inr w else String_value e
          | None => String_value e
          end
      end
  end.

(** [detail.map(...)]: the first callback that throws ends it. *)
Fixpoint map_messages (items : list json) : Thrown + list json :=
  match items with
  | [] => inr []
  | e :: rest =>
      match item_message e with
      | inl t => inl t
      | inr v =>
          match map_messages rest with
          | inl t => inl t
          | inr vs => inr (v :: vs)
          end
      end
  end.

(** The message computed in the [catch] block, starting from [dflt]. *)
Definition errorMessage (dflt : jsstring) (data : option json) : Thrown + json :=
  match data with
  | None => inr (JString dflt)
  | Some d =>
      if negb (truthy_json d) then inr (JString dflt)
      else
        match d with
        | JString text => inr (JString text)
        | _ =>
            match field d "detail" with
            | Some detail =>
                if truthy_json detail then
                  match detail with
                  | JString text => inr (JString text)
                  | JArray items =>
                      match map_messages items with
                      | inl t => inl t
                      | inr vs =>
                          match join_values (lit ", ") vs with
                          | inl t => inl t
                          | inr text => inr (JString text)
                          end
                      end
                  | _ => String_value detail
                  end
                else
                  match field d "message" with
                  | Some m => if truthy_json m then inr m else inr (JString dflt)
                  | None => inr (JString dflt)
                  end
            | None =>
                match field d "message" with
                | Some m => if truthy_json m then inr m else inr (JString dflt)
                | None => inr (JString dflt)
                end
            end
        end
  end.

Definition defaultMessage : jsstring := lit "Registration failed. Please try again.".

Definition successMessage : jsstring :=
  lit "Registration successful! Please log in with your credentials.".

(** What one run of [handleSubmit] leaves behind. *)
Record Outcome := {
  final : PageState;
  registered : list RegisterRequest;
  navigated : option Navigation;
  thrown : option Thrown;
}.

(** [handleSubmit], over the [register] of the auth context. *)
Definition handleSubmit (register : RegisterRequest -> Failure + unit)
    (s : PageState) : Outcome :=
  let s1 := setError (JString []) (setLoading true s) in
  let form := formData s in
  if negb (bool_decide (password form = confirmPassword form)) then
    {| final := setLoading false (setError (JString (lit "Passwords do not match")) s1);
       registered := []; navigated := None; thrown := None |}
  else
    let request := {| req_email := email form; req_password := password form;
                      req_first_name := first_name form;
                      req_last_name := last_name form |} in
    match register request with
    | inr _ =>
        {| final := setLoading false s1; registered := [request];
           navigated := Some {| to := lit "/login";
                                state_message := successMessage;
                                state_email := email form |};
           thrown := None |}
    | inl failure =>
        match errorMessage defaultMessage (response_data failure) with
        | inr message =>
            {| final := setLoading false (setError message s1);
               registered := [request]; navigated := None; thrown := None |}
        | inl t =>
            {| final := setLoading false s1; registered := [request];
               navigated := None; thrown := Some t |}
        end
    end.

(** [{error && ( ... )}], the error box. *)
Definition error_visible (s : PageState) : bool := truthy_json (error s).

End RegisterPage.

Module RegisterSamples.

Import Json.

Definition filled (pw confirm : string) : RegisterPage.PageState :=
  {| RegisterPage.formData :=
       {| RegisterPage.email := lit "alice@example.org";
          RegisterPage.password := lit pw;
          RegisterPage.confirmPassword := lit confirm;
          RegisterPage.first_name := lit "Alice";
          RegisterPage.last_name := lit "Rao" |};
     RegisterPage.showPassword := false; RegisterPage.loading := false;
     RegisterPage.error := JString [] |}.

Definition succeeds (r : RegisterPage.RegisterRequest)
  : RegisterPage.Failure + unit := inr tt.

(** A validation failure in the style of the server: a list of items
    with a location, a message and a type. *)
Definition validation_items : list json :=
  [JObject [("loc", JArray [JString (lit "body"); JString (lit "email")]);
            ("msg", JString (lit "value is not a valid email address"));
            ("type", JString (lit "value_error"))];
   JObject [("loc", JArray [JString (lit "body"); JString (lit "password")]);
            ("msg", JString (lit "field required"));
            ("type", JString (lit "missing"))]]%string.

Definition validation_failure : json :=
  JObject [("detail"%string, JArray validation_items)].

End RegisterSamples.

(** ** The filters as they reach the search service *)

(** The subject a request of the page carries: none for "All Subjects". *)
Definition sent_subject (f : Filters) : option jsstring :=
  if truthy (VStr (subject f)) then Some (subject f) else None.

(** The year a request of the page carries: none for "All Years", nor for
    a text that [parseInt] reads as [NaN] or 0. *)
Definition sent_year (f : Filters) : option Z :=
  if truthy (VStr (year f)) then
    match parseInt (year f) with
    | JNum z => if z =? 0 then None else Some z
    | JNaN => None
    end
  else None.

(** * Properties *)


(** ** Strings *)

Section Trim.

Lemma trimStart_nil s : trimStart s = [] <-> blank s = true.
Proof.
  induction s as [|c s IH]; simpl; [done|].
  destruct (is_whitespace c); simpl; [exact IH|].
  split; discriminate.
Qed.

Lemma blank_rev s : blank (rev s) = blank s.
Proof.
  unfold blank. apply eq_true_iff_eq.
  rewrite !forallb_forall. split; intros H x Hx; apply H.
  - rewrite <- in_rev. exact Hx.
  - rewrite in_rev. exact Hx.
Qed.

Lemma trimEnd_nil s : trimEnd s = [] <-> blank s = true.
Proof.
  unfold trimEnd. rewrite <- blank_rev, <- trimStart_nil.
  split; intros H.
  - apply (f_equal (@rev N)) in H. by rewrite rev_involutive in H.
  - by rewrite H.
Qed.

Lemma blank_trimStart s : blank (trimStart s) = blank s.
Proof.
  induction s as [|c s IH]; simpl; [done|].
  destruct (is_whitespace c) eqn:E; simpl; [exact IH|].
  by rewrite E.
Qed.

Lemma trim_nil s : trim s = [] <-> blank s = true.
Proof. unfold trim. by rewrite trimEnd_nil, blank_trimStart. Qed.

(** [!query.trim()] holds exactly for the blank queries. *)
Lemma not_trim_blank s : negb (truthy (VStr (trim s))) = blank s.
Proof.
  simpl. rewrite negb_involutive.
  destruct (blank s) eqn:E.
  - apply trim_nil in E. rewrite E. done.
  - case_bool_decide as H; [|done].
    apply trim_nil in H. congruence.
Qed.

End Trim.

(** ** The request built by [searchPYQs] *)

Section SearchRequest.

Variables (query : jsstring) (filters : option jsobject).

Lemma searchRequest_limit :
  get (ApiService.searchRequest query filters) "limit"
  = js_or (get_opt filters "limit") (VNum (JNum 10)).
Proof. reflexivity. Qed.

Lemma searchRequest_query :
  get (ApiService.searchRequest query filters) "query" = VStr query.
Proof. reflexivity. Qed.

Lemma searchRequest_no_page :
  get (ApiService.searchRequest query filters) "page" = VUndef
  /\ has_key (ApiService.searchRequest query filters) "page" = false.
Proof.
  unfold ApiService.searchRequest, spread_and.
  by destruct (truthy (get_opt filters "subject")),
              (truthy (get_opt filters "year")).
Qed.

Lemma searchRequest_subject :
  get (ApiService.searchRequest query filters) "subject"
  = if truthy (get_opt filters "subject") then get_opt filters "subject"
    else VUndef.
Proof.
  unfold ApiService.searchRequest, spread_and.
  by destruct (truthy (get_opt filters "subject")),
              (truthy (get_opt filters "year")).
Qed.

Lemma searchRequest_year :
  get (ApiService.searchRequest query filters) "year"
  = if truthy (get_opt filters "year") then get_opt filters "year"
    else VUndef.
Proof.
  unfold ApiService.searchRequest, spread_and.
  by destruct (truthy (get_opt filters "subject")),
              (truthy (get_opt filters "year")).
Qed.

End SearchRequest.

(** The filters built by [handleSearch], read back field by field. *)
Section SearchFilters.

Variables (f : Filters) (page : Z).

Lemma searchFilters_limit : get (searchFilters f page) "limit" = VNum (JNum 10).
Proof.
  unfold searchFilters, spread_and.
  by destruct (truthy (VStr (subject f))), (truthy (VStr (year f))).
Qed.

Lemma searchFilters_page : get (searchFilters f page) "page" = VNum (JNum page).
Proof.
  unfold searchFilters, spread_and.
  by destruct (truthy (VStr (subject f))), (truthy (VStr (year f))).
Qed.

Lemma searchFilters_subject :
  get (searchFilters f page) "subject"
  = if truthy (VStr (subject f)) then VStr (subject f) else VUndef.
Proof.
  unfold searchFilters, spread_and.
  by destruct (truthy (VStr (subject f))), (truthy (VStr (year f))).
Qed.

Lemma searchFilters_year :
  get (searchFilters f page) "year"
  = if truthy (VStr (year f)) then VNum (parseInt (year f)) else VUndef.
Proof.
  unfold searchFilters, spread_and.
  by destruct (truthy (VStr (subject f))), (truthy (VStr (year f))).
Qed.

(** The body on the wire depends on the filters only: the page is read
    by nobody. *)
Lemma request_body_unfold q :
  request_body {| call_query := q; call_filters := searchFilters f page |}
  = [("query", VStr q); ("limit", VNum (JNum 10))]
    ++ spread_and (VStr (subject f)) [("subject", VStr (subject f))]
    ++ (if truthy (VStr (year f)) && truthy (VNum (parseInt (year f)))
        then [("year", VNum (parseInt (year f)))] else []).
Proof.
  unfold request_body, ApiService.searchRequest. simpl get_opt. simpl call_query.
  rewrite searchFilters_limit, searchFilters_subject, searchFilters_year.
  unfold spread_and, js_or.
  destruct (truthy (VStr (subject f))) eqn:Es, (truthy (VStr (year f))) eqn:Ey;
    cbv iota; rewrite ?Es, ?Ey; try done.
  all: by destruct (parseInt (year f)) as [z|]; simpl; [destruct (z =? 0)|].
Qed.

End SearchFilters.

(** ** Limit and page of the outgoing request *)

Lemma searchRequest_limit_truthy (query : jsstring) (filters : option jsobject) :
  truthy (get (ApiService.searchRequest query filters) "limit") = true.
Proof.
  rewrite searchRequest_limit. unfold js_or.
  by destruct (truthy (get_opt filters "limit")) eqn:E.
Qed.

(** On the earlier copy of [searchPYQs] a caller that supplies the limit 0
    does not see it forwarded unchanged, and no request carries a page. *)
Lemma supplied_limit_not_always_forwarded :
  ~ (forall (query : jsstring) (filters : option jsobject),
        (get_opt filters "limit" = VUndef ->
         get (ApiService.searchRequest query filters) "limit" = VNum (JNum 10))
        /\ (forall n, get_opt filters "limit" = VNum n ->
            get (ApiService.searchRequest query filters) "limit" = VNum n)
        /\ (get_opt filters "page" = VUndef ->
            get (ApiService.searchRequest query filters) "page" = VNum (JNum 1))).
Proof.
  intros H.
  destruct (H (lit "ethics") (Some [("limit", VNum (JNum 0))])) as (_ & Hfwd & _).
  specialize (Hfwd (JNum 0) eq_refl). discriminate Hfwd.
Qed.

(** The limit on the earlier copy: the request sent by [searchPYQs]
    carries the caller's limit when that limit is truthy, and 10
    otherwise; so a caller without a limit gets 10, a limit of 0 or NaN is
    replaced by 10, and every other supplied limit is forwarded
    unchanged. *)
Theorem searchPYQs_limit_or_default (query : jsstring) (filters : option jsobject) :
  let sent := get (ApiService.searchRequest query filters) "limit" in
  sent = (if truthy (get_opt filters "limit") then get_opt filters "limit"
          else VNum (JNum 10))
  /\ (get_opt filters "limit" = VUndef -> sent = VNum (JNum 10))
  /\ (forall z, z <> 0 -> get_opt filters "limit" = VNum (JNum z) ->
      sent = VNum (JNum z))
  /\ (get_opt filters "limit" = VNum (JNum 0) \/ get_opt filters "limit" = VNum JNaN ->
      sent = VNum (JNum 10)).
Proof.
  cbv zeta. rewrite searchRequest_limit. unfold js_or.
  split; [done|]. split; [by intros ->|]. split.
  - intros z Hz ->. simpl. by destruct (Z.eqb_spec z 0).
  - by intros [-> | ->].
Qed.

Lemma searchPYQs_limit_or_default_witness :
  get (ApiService.searchRequest (lit "ethics") (Some [("limit", VNum (JNum 25))]))
    "limit" = VNum (JNum 25)
  /\ get (ApiService.searchRequest (lit "ethics") (Some [("limit", VNum (JNum 0))]))
       "limit" = VNum (JNum 10)
  /\ get (ApiService.searchRequest (lit "ethics") None) "limit" = VNum (JNum 10).
Proof.
  split; [|split].
  - destruct (searchPYQs_limit_or_default (lit "ethics")
                (Some [("limit", VNum (JNum 25))])) as (_ & _ & Hfwd & _).
    apply (Hfwd 25); [lia | reflexivity].
  - destruct (searchPYQs_limit_or_default (lit "ethics")
                (Some [("limit", VNum (JNum 0))])) as (_ & _ & _ & Hzero).
    apply Hzero. left. reflexivity.
  - destruct (searchPYQs_limit_or_default (lit "ethics") None)
      as (_ & Hnone & _).
    apply Hnone. reflexivity.
Defined.

(** C8: a limit of 0 (like a missing one, or any other falsy value) is
    replaced by 10 in the request, so no request built by [searchPYQs]
    ever asks for zero items, and building the request never fails. *)
Theorem searchPYQs_zero_limit_becomes_ten (query : jsstring) (filters : option jsobject) :
  (truthy (get_opt filters "limit") = false ->
   get (ApiService.searchRequest query filters) "limit" = VNum (JNum 10))
  /\ (get_opt filters "limit" = VNum (JNum 0) \/ get_opt filters "limit" = VUndef ->
      get (ApiService.searchRequest query filters) "limit" = VNum (JNum 10))
  /\ get (ApiService.searchRequest query filters) "limit" <> VNum (JNum 0)
  /\ truthy (get (ApiService.searchRequest query filters) "limit") = true.
Proof.
  rewrite searchRequest_limit. unfold js_or.
  split; [by intros ->|]. split; [by intros [-> | ->]|].
  destruct (truthy (get_opt filters "limit")) eqn:E.
  - split; [|done]. intros Heq. rewrite Heq in E. discriminate E.
  - done.
Qed.

Lemma searchPYQs_zero_limit_becomes_ten_witness :
  get (ApiService.searchRequest (lit "ethics")
         (Some [("limit", VNum (JNum 0)); ("page", VNum (JNum 1))])) "limit"
  = VNum (JNum 10).
Proof.
  destruct (searchPYQs_zero_limit_becomes_ten (lit "ethics")
              (Some [("limit", VNum (JNum 0)); ("page", VNum (JNum 1))]))
    as (_ & Hzero & _).
  apply Hzero. left. reflexivity.
Defined.

(** ** Filters of the outgoing request *)

Lemma years_options_parse :
  Forall (fun y => parseInt (toString y) = JNum y /\ toString y <> [] /\ y <> 0) years.
Proof. unfold years. simpl. repeat constructor; done. Qed.

(** C10: an unset filter (empty subject, empty year) leaves no key in the
    body that reaches the endpoint, so that body is equal, key for key and
    in the same order, to the one built without any filters (hence the
    same bytes under any serialiser); a year chosen in the year list is
    sent as the integer it denotes. *)
Theorem unset_filters_are_omitted (q : jsstring) (f : Filters) (page : Z) :
  let body :=
    request_body {| call_query := q; call_filters := searchFilters f page |} in
  (subject f = [] -> has_key body "subject" = false)
  /\ (year f = [] -> has_key body "year" = false)
  /\ (subject f = [] -> year f = [] -> body = ApiService.searchRequest q None)
  /\ (forall y, y ∈ years -> year f = toString y ->
      get body "year" = VNum (JNum y))
  /\ ApiService.searchRequest q (Some [("subject", VStr [])])
     = ApiService.searchRequest q None.
Proof.
  cbv zeta. rewrite request_body_unfold. unfold spread_and.
  split; [|split; [|split; [|split]]].
  - intros ->. simpl.
    by destruct (negb _ && _).
  - intros ->. simpl. by destruct (negb _).
  - by intros -> ->.
  - intros y Hy Hf.
    pose proof years_options_parse as HF. rewrite Forall_forall in HF.
    destruct (HF y Hy) as (Hp & Hne & Hz).
    rewrite Hf, Hp. simpl.
    assert (bool_decide (toString y = []) = false) as -> by by apply bool_decide_eq_false.
    assert ((y =? 0) = false) as -> by by apply Z.eqb_neq.
    simpl. by destruct (negb _).
  - reflexivity.
Qed.

Lemma unset_filters_are_omitted_witness :
  request_body {| call_query := lit "ethics";
                  call_filters := searchFilters {| subject := []; year := [] |} 3 |}
  = ApiService.searchRequest (lit "ethics") None
  /\ get (request_body
            {| call_query := lit "ethics";
               call_filters :=
                 searchFilters {| subject := []; year := lit "2021" |} 1 |}) "year"
     = VNum (JNum 2021).
Proof.
  split.
  - destruct (unset_filters_are_omitted (lit "ethics")
                {| subject := []; year := [] |} 3) as (_ & _ & Hsame & _).
    apply Hsame; reflexivity.
  - destruct (unset_filters_are_omitted (lit "ethics")
                {| subject := []; year := lit "2021" |} 1) as (_ & _ & _ & Hyear & _).
    apply Hyear; [|reflexivity].
    vm_compute. set_solver.
Defined.

(** ** Paging through [searchPYQs] *)

Lemma viaApiService_body post call :
  viaApiService post call
  = match post "/pyqs/search"%string (request_body call) with
    | inl e => inl e
    | inr response => inr (data response)
    end.
Proof. reflexivity. Qed.

Lemma request_body_page_irrelevant q f p1 p2 :
  request_body {| call_query := q; call_filters := searchFilters f p1 |}
  = request_body {| call_query := q; call_filters := searchFilters f p2 |}.
Proof. by rewrite !request_body_unfold. Qed.

(** Were the page wired to the earlier copy of the service, the page that
    [handleSearch] asks for would not reach the wire: whatever the
    transport, [handleSearch(p1)] and [handleSearch(p2)] on the same state
    would post equal bodies and show equal results. *)
Theorem handleSearch_page_is_not_sent
    (post : Post (list PYQSearchResult.t)) (s : PageState) (p1 p2 : Z) :
  map request_body (handleSearch (viaApiService post) s p1).1.2
  = map request_body (handleSearch (viaApiService post) s p2).1.2
  /\ results (handleSearch (viaApiService post) s p1).1.1
     = results (handleSearch (viaApiService post) s p2).1.1.
Proof.
  unfold handleSearch, handleSearch_call.
  destruct (negb (truthy (VStr (trim (query s))))); [done|].
  cbn [fst snd map]. split.
  - f_equal. apply request_body_page_irrelevant.
  - unfold handleSearch_resume. rewrite !viaApiService_body.
    rewrite (request_body_page_irrelevant (query s) (filters s) p1 p2).
    by destruct (post _ _).
Qed.

(** Against a server that holds 25 cached results for the query, the
    earlier copy would show items 1 to 10 again for page 2, where the
    slicer's second window is items 11 to 20; the copy that sends the page
    shows that second window. *)
Lemma page_two_of_cached_25 :
  Samples.ids (results
    (handleSearch (viaApiService Samples.server25) Samples.typed_ethics 2).1.1)
  = [1; 2; 3; 4; 5; 6; 7; 8; 9; 10]
  /\ Samples.ids (Backend.slice (Samples.items 25) 2 10)
     = [11; 12; 13; 14; 15; 16; 17; 18; 19; 20]
  /\ Samples.ids (results
       (handleSearch (viaApiServiceWithPage Samples.server25 1700000000)
          Samples.typed_ethics 2).1.1)
     = [11; 12; 13; 14; 15; 16; 17; 18; 19; 20].
Proof. by vm_compute. Qed.

(** The copy of the service that sends the page does forward the one
[handleSearch] asks for. *)
Lemma searchPYQs_with_page_sends_page now q f page :
  page <> 0 ->
  get (ApiServiceWithPage.searchRequest now q (Some (searchFilters f page))) "page"
  = VNum (JNum page).
Proof.
  intros Hp. unfold ApiServiceWithPage.searchRequest. simpl get_opt.
  rewrite searchFilters_page. simpl. unfold js_or. simpl.
  by destruct (Z.eqb_spec page 0).
Qed.

(** The slicer itself pages as intended: the first [n] windows, one after
the other, are the first [n * limit] results, hence all of them once
[n * limit] reaches their number. *)
Section Slicer.

Context {A : Type}.
Implicit Types rs : list A.

Lemma slice_unfold rs (p : nat) (limit : Z) :
  1 <= limit ->
  Backend.slice rs (Z.of_nat (S p)) limit
  = take (Z.to_nat limit) (drop (p * Z.to_nat limit) rs).
Proof.
  intros Hl. unfold Backend.slice. do 2 f_equal.
  rewrite Z2Nat.inj_mul by lia. lia.
Qed.

Lemma slice_pages rs (limit : Z) (n : nat) :
  1 <= limit ->
  concat (map (fun p => Backend.slice rs (Z.of_nat p) limit) (seq 1 n))
  = take (n * Z.to_nat limit) rs.
Proof.
  intros Hl. induction n as [|n IH]; [done|].
  rewrite seq_S, map_app, concat_app, IH. simpl.
  rewrite app_nil_r, slice_unfold by done.
  rewrite take_take_drop. f_equal. lia.
Qed.

Lemma slice_pages_all rs (limit : Z) (n : nat) :
  1 <= limit -> (length rs <= n * Z.to_nat limit)%nat ->
  concat (map (fun p => Backend.slice rs (Z.of_nat p) limit) (seq 1 n)) = rs.
Proof. intros Hl Hn. rewrite slice_pages by done. by apply take_ge. Qed.

Lemma slice_past_the_end rs (page limit : Z) :
  (length rs <= Z.to_nat ((page - 1) * limit))%nat ->
  Backend.slice rs page limit = [].
Proof. intros H. unfold Backend.slice. rewrite drop_ge by done. apply take_nil. Qed.

End Slicer.

(** ** One run of [handleSearch] *)

Lemma handleSearch_call_blank s page :
  blank (query s) = true -> handleSearch_call s page = None.
Proof. intros H. unfold handleSearch_call. by rewrite not_trim_blank, H. Qed.

Lemma handleSearch_call_nonblank s page :
  blank (query s) = false ->
  handleSearch_call s page
  = Some (setLoading true s,
          {| call_query := query s;
             call_filters := searchFilters (filters s) page |}).
Proof. intros H. unfold handleSearch_call. by rewrite not_trim_blank, H. Qed.

Lemma hasMoreResults_resume page searchResults s :
  hasMoreResults (handleSearch_resume page (inr searchResults) s)
  = (Z.of_nat (length searchResults) =? 10).
Proof. reflexivity. Qed.

(** C2: when a search with limit 10 completes, the has-more flag is true
    exactly when the page came back with 10 items; a page of fewer than 10
    items clears the flag and disables the Next button. *)
Theorem hasMoreResults_iff_full_page
    (api : ApiCall -> ApiError + list PYQSearchResult.t)
    (s : PageState) (page : Z) (searchResults : list PYQSearchResult.t) :
  blank (query s) = false ->
  api {| call_query := query s;
         call_filters := searchFilters (filters s) page |} = inr searchResults ->
  let s' := (handleSearch api s page).1.1 in
  Forall (fun c => get (request_body c) "limit" = VNum (JNum 10))
    (handleSearch api s page).1.2
  /\ (hasMoreResults s' = true <-> length searchResults = 10%nat)
  /\ ((length searchResults < 10)%nat ->
      hasMoreResults s' = false /\ next_disabled s' = true
      /\ forall m, ui m = s' -> step m ClickNext = None).
Proof.
  intros Hq Hapi. unfold handleSearch.
  rewrite (handleSearch_call_nonblank _ _ Hq), Hapi. cbn [fst snd].
  split; [|split].
  - constructor; [|constructor]. by rewrite request_body_unfold.
  - rewrite hasMoreResults_resume. rewrite Z.eqb_eq. lia.
  - intros Hlt.
    assert (next_disabled (handleSearch_resume page (inr searchResults)
                             (setLoading true s)) = true) as Hnext.
    { unfold next_disabled. rewrite hasMoreResults_resume.
      assert ((Z.of_nat (length searchResults) =? 10) = false) as ->
        by (apply Z.eqb_neq; lia).
      done. }
    split; [|split; [done|]].
    + rewrite hasMoreResults_resume. apply Z.eqb_neq. lia.
    + intros m Hm. cbn [step]. rewrite Hm, Hnext. by rewrite andb_false_r.
Qed.

Lemma hasMoreResults_iff_full_page_witness :
  hasMoreResults (handleSearch (Samples.answers 10) Samples.typed_ethics 1).1.1 = true
  /\ next_disabled (handleSearch (Samples.answers 7) Samples.typed_ethics 2).1.1 = true.
Proof.
  split.
  - destruct (hasMoreResults_iff_full_page (Samples.answers 10)
                Samples.typed_ethics 1 (Samples.items 10))
      as (_ & Hiff & _); [reflexivity | reflexivity |].
    apply Hiff. reflexivity.
  - destruct (hasMoreResults_iff_full_page (Samples.answers 7)
                Samples.typed_ethics 2 (Samples.items 7))
      as (_ & _ & Hshort); [reflexivity | reflexivity |].
    apply Hshort. simpl. lia.
Defined.

(** The auto-search triggered by a filter change sets the flag the same
    way. *)
Lemma hasMoreResults_performSearch searchResults s :
  hasMoreResults (performSearch_resume (inr searchResults) s) = true
  <-> length searchResults = 10%nat.
Proof. simpl. rewrite Z.eqb_eq. lia. Qed.

(** C3, as stated, does not hold: a blank query is dropped without a call,
    but the handler returns normally; no error, of kind InvalidQuery or
    other, is surfaced. *)
Lemma blank_query_is_not_rejected_as_invalid :
  ~ (forall (api : ApiCall -> ApiError + list PYQSearchResult.t)
            (s : PageState) (page : Z),
        blank (query s) = true ->
        (handleSearch api s page).1.2 = []
        /\ rejected_with Backend.InvalidQuery (handleSearch api s page).2).
Proof.
  intros H.
  destruct (H (Samples.answers 10) Samples.typed_spaces 1 eq_refl)
    as (_ & e & Hthrew & _).
  discriminate Hthrew.
Qed.

(** C3, amended: for a query that is empty or white space only, neither
    search page makes a call to the search API; the handler returns at its
    guard, leaving every state cell as it was and raising nothing. *)
Theorem blank_query_makes_no_call
    (api : ApiCall -> ApiError + list PYQSearchResult.t)
    (s : PageState) (page : Z) (sb : PYQSearchPageBasic.PageState)
    (m : Machine) :
  (blank (query s) = true -> handleSearch api s page = (s, [], Returned))
  /\ (blank (PYQSearchPageBasic.query sb) = true ->
      PYQSearchPageBasic.handleSearch api sb = (sb, [], Returned))
  /\ (blank (query (ui m)) = true -> invoke_handleSearch page m = m).
Proof.
  split; [|split]; intros Hb.
  - unfold handleSearch. by rewrite (handleSearch_call_blank _ _ Hb).
  - unfold PYQSearchPageBasic.handleSearch. by rewrite not_trim_blank, Hb.
  - unfold invoke_handleSearch. by rewrite (handleSearch_call_blank _ _ Hb).
Qed.

Lemma blank_query_makes_no_call_witness :
  handleSearch (Samples.answers 10) Samples.typed_spaces 1
  = (Samples.typed_spaces, [], Returned).
Proof.
  destruct (blank_query_makes_no_call (Samples.answers 10)
              Samples.typed_spaces 1
              {| PYQSearchPageBasic.query := [];
                 PYQSearchPageBasic.results := [];
                 PYQSearchPageBasic.loading := false;
                 PYQSearchPageBasic.filters := {| subject := []; year := [] |};
                 PYQSearchPageBasic.showFilters := false |}
              mount) as (Hpage & _).
  apply Hpage. reflexivity.
Defined.

(** C9: when the call fails, [handleSearch] leaves the results, the
    current page, the has-more flag and the total count (and the query and
    filters) as they were; only the loading flag is reset. *)
Theorem failed_search_keeps_state
    (api : ApiCall -> ApiError + list PYQSearchResult.t)
    (s : PageState) (page : Z) (e : ApiError) :
  blank (query s) = false ->
  api {| call_query := query s;
         call_filters := searchFilters (filters s) page |} = inl e ->
  let s' := (handleSearch api s page).1.1 in
  s' = setLoading false s
  /\ results s' = results s
  /\ currentPage s' = currentPage s
  /\ hasMoreResults s' = hasMoreResults s
  /\ totalResults s' = totalResults s
  /\ loading s' = false.
Proof.
  intros Hq Hapi. unfold handleSearch.
  rewrite (handleSearch_call_nonblank _ _ Hq), Hapi. cbn [fst snd].
  by repeat split.
Qed.

Lemma failed_search_keeps_state_witness :
  (handleSearch Samples.unreachable
     (setLoading true (setCurrentPage 3 Samples.typed_ethics)) 4).1.1
  = setLoading false (setLoading true (setCurrentPage 3 Samples.typed_ethics)).
Proof.
  destruct (failed_search_keeps_state Samples.unreachable
              (setLoading true (setCurrentPage 3 Samples.typed_ethics)) 4
              NetworkFailure) as (Hsame & _); [reflexivity | reflexivity |].
  exact Hsame.
Defined.

(** The same holds when the failure arrives while other things have
    happened in between: the continuation only resets the loading flag. *)
Lemma handleSearch_resume_failure page e s :
  handleSearch_resume page (inl e) s = setLoading false s.
Proof. reflexivity. Qed.

(** ** The page number over the life of the component *)

Section PageInvariant.

Lemma with_ui_invariant f m :
  currentPage (f (ui m)) = currentPage (ui m) ->
  page_invariant m -> page_invariant (with_ui f m).
Proof. intros Hf (Hp & Hi & Hc). unfold page_invariant. simpl. by rewrite Hf. Qed.

Lemma rerun_effect_invariant m :
  page_invariant m -> page_invariant (rerun_effect m).
Proof.
  intros (Hp & Hi & Hc). unfold rerun_effect.
  by destruct (_ && _ && _).
Qed.

Lemma change_filters_invariant f m :
  page_invariant m -> page_invariant (change_filters f m).
Proof.
  intros H. unfold change_filters. case_bool_decide; [done|].
  apply rerun_effect_invariant. by apply with_ui_invariant.
Qed.

Lemma searchFilters_page_at_least_one q f page :
  1 <= page ->
  page_at_least_one {| call_query := q; call_filters := searchFilters f page |}.
Proof.
  intros H. exists page. split; [|done].
  unfold call_page. simpl. apply searchFilters_page.
Qed.

Lemma invoke_handleSearch_invariant page m :
  1 <= page -> page_invariant m -> page_invariant (invoke_handleSearch page m).
Proof.
  intros Hpage (Hp & Hi & Hc). unfold invoke_handleSearch, handleSearch_call.
  destruct (negb _); [done|].
  unfold page_invariant. simpl. split; [done|].
  rewrite !Forall_app, !Forall_singleton.
  repeat split; try done.
  by apply searchFilters_page_at_least_one.
Qed.

Lemma handleSearch_resume_page page outcome s :
  currentPage (handleSearch_resume page outcome s)
  = match outcome with inr _ => page | inl _ => currentPage s end.
Proof. by destruct outcome. Qed.

Lemma performSearch_resume_page outcome s :
  currentPage (performSearch_resume outcome s)
  = match outcome with inr _ => 1 | inl _ => currentPage s end.
Proof. by destruct outcome. Qed.

Lemma step_invariant m e m' :
  page_invariant m -> step m e = Some m' -> page_invariant m'.
Proof.
  intros Hinv Hstep. pose proof Hinv as (Hp & Hi & Hc).
  destruct e; simpl in Hstep.
  - inversion Hstep; subst. by apply with_ui_invariant.
  - inversion Hstep; subst. by apply with_ui_invariant.
  - case_bool_decide; inversion Hstep; subst. by apply change_filters_invariant.
  - case_bool_decide; inversion Hstep; subst. by apply change_filters_invariant.
  - destruct (debounceTimer m) as [[q f]|]; inversion Hstep; subst.
    unfold page_invariant. simpl. split; [done|].
    rewrite !Forall_app, !Forall_singleton. repeat split; try done.
    by apply searchFilters_page_at_least_one.
  - inversion Hstep; subst. by apply invoke_handleSearch_invariant.
  - destruct (search_disabled (ui m)); inversion Hstep; subst.
    by apply invoke_handleSearch_invariant.
  - destruct (pagination_visible (ui m) && negb (previous_disabled (ui m))) eqn:E;
      inversion Hstep; subst.
    apply invoke_handleSearch_invariant; [|done].
    apply andb_prop in E as [_ E]. unfold previous_disabled in E.
    apply negb_true_iff, orb_false_elim in E as [E _].
    apply Z.eqb_neq in E. lia.
  - destruct (pagination_visible (ui m) && negb (next_disabled (ui m)));
      inversion Hstep; subst.
    apply invoke_handleSearch_invariant; [lia|done].
  - destruct (inflight m !! i) as [[page|]|] eqn:E; inversion Hstep; subst.
    + pose proof (Forall_lookup_1 _ _ _ _ Hi E) as Hpage. simpl in Hpage.
      unfold page_invariant. cbn [ui inflight calls].
      rewrite handleSearch_resume_page.
      split; [by destruct outcome|]. split; [by apply Forall_delete|done].
    + unfold page_invariant. cbn [ui inflight calls].
      rewrite performSearch_resume_page.
      split; [destruct outcome; [done|lia]|].
      split; [by apply Forall_delete|done].
Qed.

Lemma mount_invariant : page_invariant mount.
Proof. unfold page_invariant. simpl. repeat split; [lia|constructor..]. Qed.

Lemma reachable_invariant m : reachable m -> page_invariant m.
Proof.
  induction 1 as [|m e m' _ IH Hstep]; [apply mount_invariant|].
  by apply (step_invariant m e).
Qed.

Lemma run_reachable es : forall m m',
  reachable m -> run m es = Some m' -> reachable m'.
Proof.
  induction es as [|e es IH]; intros m m' Hm Hrun; simpl in Hrun.
  - by inversion Hrun; subst.
  - destruct (step m e) as [m1|] eqn:E; [|done].
    apply (IH m1); [|done]. by apply (reachable_step m e).
Qed.

End PageInvariant.

(** C6: in every state the page can reach from its mount, by typing,
    toggling or changing filters, searching, Next, Previous, the debounce
    timer and calls settling in any order, the current page is at least 1,
    every call made to the search service carries a page of at least 1,
    and Previous is not offered while the current page is 1. *)
Theorem current_page_at_least_one (m : Machine) :
  reachable m ->
  1 <= currentPage (ui m)
  /\ Forall page_at_least_one (calls m)
  /\ (currentPage (ui m) = 1 -> step m ClickPrevious = None).
Proof.
  intros Hr. destruct (reachable_invariant m Hr) as (Hp & _ & Hc).
  split; [done|]. split; [done|].
  intros H1. simpl. unfold previous_disabled. rewrite H1. simpl.
  by rewrite andb_false_r.
Qed.

(** The sample session ends on page 2 with a short page: two calls were
made, Next is no longer offered, Previous is. *)
Lemma after_browse_state :
  currentPage (ui Samples.after_browse) = 2
  /\ hasMoreResults (ui Samples.after_browse) = false
  /\ map call_page (calls Samples.after_browse) = [VNum (JNum 1); VNum (JNum 2)]
  /\ step Samples.after_browse ClickNext = None
  /\ (calls <$> step Samples.after_browse ClickPrevious)
     = Some (calls Samples.after_browse
             ++ [{| call_query := lit "ethics";
                    call_filters := searchFilters {| subject := []; year := [] |} 1 |}]).
Proof. by vm_compute. Qed.

Lemma current_page_at_least_one_witness :
  1 <= currentPage (ui Samples.after_browse)
  /\ Forall page_at_least_one (calls Samples.after_browse)
  /\ (currentPage (ui Samples.after_browse) = 1 ->
      step Samples.after_browse ClickPrevious = None).
Proof.
  apply (current_page_at_least_one Samples.after_browse).
  apply (run_reachable Samples.browse mount); [constructor | reflexivity].
Defined.

(** ** The result cache *)

Section Cache.

Context {A : Type}.
Implicit Types (cache : gmap string (Backend.CacheEntry A)).

(** A stored entry is served exactly while its age does not exceed the
    time-to-live. *)
Lemma cache_get_stored cache fp entry now :
  cache !! fp = Some entry ->
  Backend.cache_get now fp cache
  = if now - Backend.createdAt entry >? Backend.TTL then None else Some entry.
Proof. intros H. unfold Backend.cache_get. by rewrite H. Qed.

Lemma cache_get_missing cache fp now :
  cache !! fp = None -> Backend.cache_get now fp cache = None.
Proof. intros H. unfold Backend.cache_get. by rewrite H. Qed.

Lemma cache_put_stored cache fp rs T :
  Backend.cache_put T fp rs cache !! fp
  = Some {| Backend.fingerprint := fp; Backend.results := rs;
            Backend.createdAt := T |}.
Proof. unfold Backend.cache_put. apply lookup_insert_eq. Qed.

End Cache.

(** With the expiry test of section 4.5 of the design document (an entry
    is absent once its age exceeds the time-to-live), an entry created at
    time T is still served by a lookup at time T + TTL. *)
Lemma cache_entry_served_at_expiry_instant :
  ~ (forall (cache : gmap string (Backend.CacheEntry PYQSearchResult.t))
            (fp : string) (rs : list PYQSearchResult.t) (T now : Z),
        (T + Backend.TTL <= now ->
         Backend.cache_get now fp (Backend.cache_put T fp rs cache) = None)
        /\ (now < T + Backend.TTL ->
            is_Some (Backend.cache_get now fp (Backend.cache_put T fp rs cache)))).
Proof.
  intros H.
  destruct (H ∅ "ethics||"%string (Samples.items 25) 0 300) as [Habsent _].
  rewrite (cache_get_stored _ _ _ _ (cache_put_stored _ _ _ _)) in Habsent.
  simpl in Habsent. specialize (Habsent ltac:(done)). discriminate Habsent.
Qed.

(** With that test, an entry created at time T stays physically stored,
    is treated as absent by every lookup at a time later than T + TTL (TTL
    is five minutes) and as present by every lookup at a time up to and
    including T + TTL. *)
Theorem cache_entry_expiry
    (cache : gmap string (Backend.CacheEntry PYQSearchResult.t))
    (fp : string) (rs : list PYQSearchResult.t) (T now : Z) :
  let stored := Backend.cache_put T fp rs cache in
  let entry := {| Backend.fingerprint := fp; Backend.results := rs;
                  Backend.createdAt := T |} in
  stored !! fp = Some entry
  /\ (T + Backend.TTL < now -> Backend.cache_get now fp stored = None)
  /\ (now <= T + Backend.TTL -> Backend.cache_get now fp stored = Some entry).
Proof.
  cbv zeta. split; [apply cache_put_stored|].
  rewrite (cache_get_stored _ _ _ _ (cache_put_stored _ _ _ _)). simpl.
  split; intros Hnow.
  - assert ((now - T >? Backend.TTL) = true) as -> by lia. done.
  - assert ((now - T >? Backend.TTL) = false) as -> by lia. done.
Qed.

Lemma cache_entry_expiry_witness :
  Backend.cache_get 301 "ethics||" Samples.cache25 = None
  /\ Backend.cache_get 300 "ethics||" Samples.cache25
     = Some {| Backend.fingerprint := "ethics||";
               Backend.results := Samples.items 25;
               Backend.createdAt := 0 |}.
Proof.
  split.
  - destruct (cache_entry_expiry ∅ "ethics||" (Samples.items 25) 0 301)
      as (_ & Hgone & _).
    apply Hgone. reflexivity.
  - destruct (cache_entry_expiry ∅ "ethics||" (Samples.items 25) 0 300)
      as (_ & _ & Hkept).
    apply Hkept. unfold Backend.TTL. lia.
Defined.

(** The scenario of the design document on the modelled service: the
pipeline finds 15 candidates, the cache stores all 15, page 1 is the first
10 and page 2, served from the cache while the pipeline is down, the
remaining 5. *)
Lemma fifteen_candidates_two_pages :
  let r1 := {| Backend.query := lit "climate change adaptation";
               Backend.subject := None; Backend.year := None;
               Backend.page := 1; Backend.limit := 10 |} in
  let r2 := {| Backend.query := lit "climate change adaptation";
               Backend.subject := None; Backend.year := None;
               Backend.page := 2; Backend.limit := 10 |} in
  let first :=
    Backend.search Samples.fingerprintOf (Samples.pipeline_of 15) 0 ∅ r1 in
  let second :=
    Backend.search Samples.fingerprintOf Samples.pipeline_down 120 first.1 r2 in
  first.2 = inr (Samples.items 10)
  /\ second.2 = inr (drop 10 (Samples.items 15))
  /\ (Backend.results <$>
        first.1 !! Samples.fingerprintOf (lit "climate change adaptation") None None)
     = Some (Samples.items 15).
Proof. by vm_compute. Qed.

(** ** The response of a search *)

Section Response.

Variable fingerprintOf : jsstring -> option jsstring -> option Z -> string.
Variable executePipeline :
  Backend.SearchRequest -> Backend.ErrorKind + list PYQSearchResult.t.

Lemma slice_length {A} (rs : list A) page limit :
  (length (Backend.slice rs page limit) <= Z.to_nat limit)%nat.
Proof. unfold Backend.slice. rewrite length_take. lia. Qed.

Lemma search_success now cache r items :
  (Backend.search fingerprintOf executePipeline now cache r).2 = inr items ->
  1 <= Backend.limit r
  /\ exists full, items = Backend.slice full (Backend.page r) (Backend.limit r).
Proof.
  unfold Backend.search, Backend.validate.
  destruct (negb (blank (Backend.query r)) && (1 <=? Backend.page r)
            && (1 <=? Backend.limit r)) eqn:Ev; simpl; [|done].
  apply andb_prop in Ev as [_ Hl]. apply Z.leb_le in Hl.
  intros H. split; [done|].
  destruct (Backend.cache_get _ _ _) as [entry|].
  - simpl in H. inversion H. by eexists.
  - destruct (executePipeline r) as [k|full]; simpl in H; [done|].
    inversion H. by eexists.
Qed.

Lemma read_request_limit body r :
  Backend.read_request body = Some r ->
  truthy (get body "limit") = true ->
  get body "limit" = VNum (JNum (Backend.limit r)).
Proof.
  unfold Backend.read_request, Backend.int_field. intros H Ht.
  destruct (get body "query"); try done.
  destruct (get body "page") as [| |[p|]]; try done;
    destruct (get body "limit") as [| |[l|]]; try done;
    by inversion H.
Qed.

Lemma searchPYQs_returns_data (post : Post (list PYQSearchResult.t)) q f items :
  ApiService.searchPYQs post q f = inr items
  <-> exists response,
        post "/pyqs/search"%string (ApiService.searchRequest q f) = inr response
        /\ data response = items.
Proof.
  unfold ApiService.searchPYQs.
  destruct (post _ _) as [e|response]; split.
  - done.
  - by intros (? & ? & _).
  - intros H. inversion H. by eexists.
  - intros (r' & Hr & <-). by inversion Hr.
Qed.

End Response.

(** C7: [searchPYQs] hands back the payload of the response as it is, a
    list of [PYQSearchResult] records (id, question, year, paper, subject,
    topics, marks, difficulty, similarity score), in the order received;
    and when the search service answers successfully that list has at most
    as many items as the limit carried by the request. *)
Theorem search_response_is_bounded_array
    (fingerprintOf : jsstring -> option jsstring -> option Z -> string)
    (executePipeline :
       Backend.SearchRequest -> Backend.ErrorKind + list PYQSearchResult.t)
    (now : Z) (cache : gmap string (Backend.CacheEntry PYQSearchResult.t))
    (query : jsstring) (filters : option jsobject)
    (items : list PYQSearchResult.t) :
  let server := Backend.endpoint fingerprintOf executePipeline now cache in
  ApiService.searchPYQs server query filters = inr items ->
  (exists response,
      server "/pyqs/search"%string (ApiService.searchRequest query filters)
      = inr response
      /\ data response = items)
  /\ (exists limit,
        get (ApiService.searchRequest query filters) "limit" = VNum (JNum limit)
        /\ Z.of_nat (length items) <= limit).
Proof.
  cbv zeta. intros H. pose proof H as Hdata.
  apply searchPYQs_returns_data in Hdata as (response & Hpost & Hitems).
  split; [by exists response|].
  unfold Backend.endpoint in Hpost.
  rewrite String.eqb_refl in Hpost. cbn [negb] in Hpost.
  destruct (Backend.read_request _) as [r|] eqn:Er; [|done].
  destruct (Backend.search _ _ _ _ _).2 as [k|found] eqn:Es; [done|].
  inversion Hpost; subst response. simpl in Hitems. subst found.
  apply search_success in Es as (Hl & full & ->).
  exists (Backend.limit r). split.
  - apply (read_request_limit _ _ Er).
    apply searchRequest_limit_truthy.
  - pose proof (slice_length full (Backend.page r) (Backend.limit r)). lia.
Qed.

Lemma search_response_is_bounded_array_witness :
  exists limit,
    get (ApiService.searchRequest (lit "ethics") None) "limit" = VNum (JNum limit)
    /\ Z.of_nat (length (Samples.items 10)) <= limit.
Proof.
  destruct (search_response_is_bounded_array Samples.fingerprintOf
              Samples.pipeline_down 60 Samples.cache25 (lit "ethics") None
              (Samples.items 10)) as [_ Hbound]; [by vm_compute | exact Hbound].
Defined.

(** * Further properties of the search page *)

(** ** What is shown agrees with what was received *)

Section Display.

Lemma with_ui_display f m :
  display_consistent (ui m) ->
  (forall s, display_consistent s -> display_consistent (f s)) ->
  display_consistent (ui (with_ui f m)).
Proof. intros H Hf. by apply Hf. Qed.

Lemma rerun_effect_ui m : ui (rerun_effect m) = ui m.
Proof. unfold rerun_effect. by destruct (_ && _ && _). Qed.

Lemma change_filters_ui f m :
  ui (change_filters f m) = ui m \/ ui (change_filters f m) = setFilters f (ui m).
Proof.
  unfold change_filters. case_bool_decide; [by left|].
  right. by rewrite rerun_effect_ui.
Qed.

Lemma invoke_handleSearch_ui page m :
  ui (invoke_handleSearch page m) = ui m
  \/ ui (invoke_handleSearch page m) = setLoading true (ui m).
Proof.
  unfold invoke_handleSearch, handleSearch_call.
  destruct (negb _); [by left|by right].
Qed.

Lemma handleSearch_resume_display page outcome s :
  display_consistent s -> display_consistent (handleSearch_resume page outcome s).
Proof. intros [H1 H2]. by destruct outcome. Qed.

Lemma performSearch_resume_display outcome s :
  display_consistent s -> display_consistent (performSearch_resume outcome s).
Proof. intros [H1 H2]. destruct outcome; [done|]. split; simpl; [done|lia]. Qed.

Lemma step_display m e m' :
  display_consistent (ui m) -> step m e = Some m' -> display_consistent (ui m').
Proof.
  intros Hd Hstep. destruct e; simpl in Hstep.
  - by inversion Hstep.
  - by inversion Hstep.
  - case_bool_decide; inversion Hstep; subst.
    by destruct (change_filters_ui
                   {| subject := value; year := year (filters (ui m)) |} m) as [-> | ->].
  - case_bool_decide; inversion Hstep; subst.
    by destruct (change_filters_ui
                   {| subject := subject (filters (ui m)); year := value |} m) as [-> | ->].
  - destruct (debounceTimer m) as [[q f]|]; by inversion Hstep.
  - inversion Hstep; subst.
    by destruct (invoke_handleSearch_ui 1 m) as [-> | ->].
  - destruct (search_disabled (ui m)); inversion Hstep; subst.
    by destruct (invoke_handleSearch_ui 1 m) as [-> | ->].
  - destruct (_ && _); inversion Hstep; subst.
    by destruct (invoke_handleSearch_ui (currentPage (ui m) - 1) m) as [-> | ->].
  - destruct (_ && _); inversion Hstep; subst.
    by destruct (invoke_handleSearch_ui (currentPage (ui m) + 1) m) as [-> | ->].
  - destruct (inflight m !! i) as [[page|]|]; inversion Hstep; subst; simpl.
    + by apply handleSearch_resume_display.
    + by apply performSearch_resume_display.
Qed.

Lemma reachable_display m : reachable m -> display_consistent (ui m).
Proof.
  induction 1 as [|m e m' _ IH Hstep]; [by split|].
  by apply (step_display m e).
Qed.

End Display.

(** X1: in every state the page can reach, the has-more flag is up exactly
    when 10 results are shown, so the Next button is offered only on a
    page of exactly 10 results. *)
Theorem next_offered_only_on_full_page (m : Machine) :
  reachable m ->
  (hasMoreResults (ui m) = true <-> length (results (ui m)) = 10%nat)
  /\ (is_Some (step m ClickNext) -> length (results (ui m)) = 10%nat).
Proof.
  intros Hr. destruct (reachable_display m Hr) as [Hmore _].
  assert (hasMoreResults (ui m) = true <-> length (results (ui m)) = 10%nat) as Hiff.
  { rewrite Hmore, Z.eqb_eq. lia. }
  split; [done|]. intros [m' Hstep]. simpl in Hstep.
  destruct (pagination_visible (ui m) && negb (next_disabled (ui m))) eqn:E; [|done].
  apply andb_prop in E as [_ E]. unfold next_disabled in E.
  apply negb_true_iff, orb_false_elim in E as [E _].
  apply negb_false_iff in E. by apply Hiff.
Qed.

Lemma next_offered_only_on_full_page_witness :
  hasMoreResults (ui Samples.after_browse) = true
  <-> length (results (ui Samples.after_browse)) = 10%nat.
Proof.
  apply (next_offered_only_on_full_page Samples.after_browse).
  apply (run_reachable Samples.browse mount); [constructor | reflexivity].
Defined.

(** X2: in every state the page can reach, the total-results counter is
    the number of results on the pages before the current one, at 10 per
    page, plus the number of results shown; it is never below the number
    of results shown. *)
Theorem totalResults_counts_pages (m : Machine) :
  reachable m ->
  totalResults (ui m)
  = (currentPage (ui m) - 1) * 10 + Z.of_nat (length (results (ui m)))
  /\ Z.of_nat (length (results (ui m))) <= totalResults (ui m).
Proof.
  intros Hr. destruct (reachable_display m Hr) as [_ Htotal].
  destruct (reachable_invariant m Hr) as (Hp & _).
  split; [done|]. rewrite Htotal. lia.
Qed.

Lemma totalResults_counts_pages_witness :
  totalResults (ui Samples.after_browse)
  = (currentPage (ui Samples.after_browse) - 1) * 10
    + Z.of_nat (length (results (ui Samples.after_browse)))
  /\ Z.of_nat (length (results (ui Samples.after_browse)))
     <= totalResults (ui Samples.after_browse).
Proof.
  apply (totalResults_counts_pages Samples.after_browse).
  apply (run_reachable Samples.browse mount); [constructor | reflexivity].
Defined.

(** ** The calls the page makes *)

Section Calls.

Lemma guard_not_blank (q : jsstring) :
  truthy (VStr (trim q)) = true -> blank q = false.
Proof. intros H. rewrite <- not_trim_blank. by rewrite H. Qed.

Lemma handleSearch_resume_filters page outcome s :
  filters (handleSearch_resume page outcome s) = filters s.
Proof. by destruct outcome. Qed.

Lemma performSearch_resume_filters outcome s :
  filters (performSearch_resume outcome s) = filters s.
Proof. by destruct outcome. Qed.

Lemma rerun_effect_timer m :
  (forall q f, debounceTimer m = Some (q, f) -> cleanup m = true) ->
  timer_consistent (rerun_effect m).
Proof.
  intros Hold q f. unfold rerun_effect.
  destruct (truthy (VStr (trim (query (ui m))))) eqn:Eq; simpl.
  - destruct (0 <? Z.of_nat (length (results (ui m)))); simpl.
    + destruct (negb (if cleanup m then false else isAutoSearchingRef m)); simpl.
      * intros [= <- <-]. split; [by apply guard_not_blank|done].
      * destruct (cleanup m) eqn:Ec; [done|]. intros H. apply Hold in H. congruence.
    + destruct (cleanup m) eqn:Ec; [done|]. intros H. apply Hold in H. congruence.
  - destruct (cleanup m) eqn:Ec; [done|]. intros H. apply Hold in H. congruence.
Qed.

Lemma change_filters_timer f m :
  timer_consistent m -> timer_consistent (change_filters f m).
Proof.
  intros Ht. unfold change_filters. case_bool_decide; [done|].
  apply rerun_effect_timer. simpl. intros q f' Hq. by destruct (Ht q f' Hq) as (_ & _ & ?).
Qed.

Lemma invoke_handleSearch_calls page m :
  calls_invariant m -> calls_invariant (invoke_handleSearch page m).
Proof.
  intros [Ht Hc]. unfold invoke_handleSearch, handleSearch_call.
  destruct (negb (truthy (VStr (trim (query (ui m)))))) eqn:E; [done|].
  split.
  - intros q f H. by apply (Ht q f).
  - simpl. rewrite Forall_app, Forall_singleton. split; [done|].
    split; simpl.
    + apply guard_not_blank. by apply negb_false_iff.
    + apply searchFilters_limit.
Qed.

Lemma step_calls m e m' :
  calls_invariant m -> step m e = Some m' -> calls_invariant m'.
Proof.
  intros Hinv Hstep. pose proof Hinv as [Ht Hc].
  destruct e; simpl in Hstep.
  - inversion Hstep; subst. split; [|done]. intros q f H. by apply (Ht q f).
  - inversion Hstep; subst. split; [|done]. intros q f H. by apply (Ht q f).
  - case_bool_decide; inversion Hstep; subst. split.
    + by apply change_filters_timer.
    + unfold change_filters. case_bool_decide; [done|].
      unfold rerun_effect. by destruct (_ && _ && _).
  - case_bool_decide; inversion Hstep; subst. split.
    + by apply change_filters_timer.
    + unfold change_filters. case_bool_decide; [done|].
      unfold rerun_effect. by destruct (_ && _ && _).
  - destruct (debounceTimer m) as [[q f]|] eqn:E; inversion Hstep; subst.
    destruct (Ht q f E) as (Hq & _ & _). split; [done|]. simpl.
    rewrite Forall_app, Forall_singleton. split; [done|].
    split; simpl; [done|apply searchFilters_limit].
  - inversion Hstep; subst. by apply invoke_handleSearch_calls.
  - destruct (search_disabled (ui m)); inversion Hstep; subst.
    by apply invoke_handleSearch_calls.
  - destruct (_ && _); inversion Hstep; subst. by apply invoke_handleSearch_calls.
  - destruct (_ && _); inversion Hstep; subst. by apply invoke_handleSearch_calls.
  - destruct (inflight m !! i) as [[page|]|]; inversion Hstep; subst.
    + split; [|done]. intros q f H. cbn [ui cleanup debounceTimer] in *.
      rewrite handleSearch_resume_filters. by apply (Ht q f).
    + split; [|done]. intros q f H. cbn [ui cleanup debounceTimer] in *.
      rewrite performSearch_resume_filters. by apply (Ht q f).
Qed.

Lemma reachable_calls m : reachable m -> calls_invariant m.
Proof.
  induction 1 as [|m e m' _ IH Hstep]; [by split|].
  by apply (step_calls m e).
Qed.

Lemma step_loading m e m' :
  loading_invariant m -> step m e = Some m' -> loading_invariant m'.
Proof.
  unfold loading_invariant. intros Hinv Hstep.
  destruct e; simpl in Hstep.
  - by inversion Hstep.
  - by inversion Hstep.
  - case_bool_decide; inversion Hstep; subst.
    unfold change_filters. case_bool_decide; [done|].
    unfold rerun_effect. by destruct (_ && _ && _).
  - case_bool_decide; inversion Hstep; subst.
    unfold change_filters. case_bool_decide; [done|].
    unfold rerun_effect. by destruct (_ && _ && _).
  - destruct (debounceTimer m) as [[q f]|]; inversion Hstep; subst. simpl.
    intros _. by destruct (inflight m).
  - inversion Hstep; subst. unfold invoke_handleSearch, handleSearch_call.
    destruct (negb _); [done|]. simpl. intros _. by destruct (inflight m).
  - destruct (search_disabled (ui m)); inversion Hstep; subst.
    unfold invoke_handleSearch, handleSearch_call.
    destruct (negb _); [done|]. simpl. intros _. by destruct (inflight m).
  - destruct (_ && _); inversion Hstep; subst.
    unfold invoke_handleSearch, handleSearch_call.
    destruct (negb _); [done|]. simpl. intros _. by destruct (inflight m).
  - destruct (_ && _); inversion Hstep; subst.
    unfold invoke_handleSearch, handleSearch_call.
    destruct (negb _); [done|]. simpl. intros _. by destruct (inflight m).
  - destruct (inflight m !! i) as [[page|]|]; inversion Hstep; subst; simpl.
    + by destruct outcome.
    + by destruct outcome.
Qed.

Lemma reachable_loading m : reachable m -> loading_invariant m.
Proof.
  induction 1 as [|m e m' _ IH Hstep]; [done|].
  by apply (step_loading m e).
Qed.

End Calls.

(** X3: the page never sends a blank query: every call it makes to the
    search service, by a search, by Next or Previous or by the filter
    auto-search, carries a query that is not blank and asks for 10
    items. *)
Theorem calls_never_blank (m : Machine) :
  reachable m -> Forall call_well_formed (calls m).
Proof. intros Hr. by destruct (reachable_calls m Hr). Qed.

Lemma calls_never_blank_witness :
  Forall call_well_formed (calls Scenarios.after_timer).
Proof.
  apply (calls_never_blank Scenarios.after_timer).
  apply (reachable_step Scenarios.after_filtering TimerFires); [|reflexivity].
  apply (run_reachable Scenarios.filtering mount); [constructor | reflexivity].
Defined.

(** X4: whenever the loading flag is up (and the search button therefore
    disabled) some call is still awaited; the converse fails, as the flag
    is lowered by the first call that settles: a state with a call still
    awaited and the search button enabled can be reached. *)
Theorem loading_implies_call_in_flight (m : Machine) :
  reachable m ->
  (search_disabled (ui m) = true -> inflight m <> [])
  /\ (exists m', reachable m' /\ inflight m' <> []
                 /\ search_disabled (ui m') = false).
Proof.
  intros Hr. split; [by apply reachable_loading|].
  exists Scenarios.after_overlapping. split; [|done].
  apply (run_reachable Scenarios.overlapping mount); [constructor | reflexivity].
Qed.

Lemma loading_implies_call_in_flight_witness :
  inflight Scenarios.after_timer <> [].
Proof.
  destruct (loading_implies_call_in_flight Scenarios.after_timer) as [Hload _].
  - apply (reachable_step Scenarios.after_filtering TimerFires); [|reflexivity].
    apply (run_reachable Scenarios.filtering mount); [constructor | reflexivity].
  - apply Hload. reflexivity.
Defined.

(** X5: when the debounce timer fires, the auto-search asks for page 1
    with the filters selected at that moment (not those of an earlier,
    superseded change) and with the query, not blank, that was typed when
    the filters last changed. *)
Theorem auto_search_uses_selected_filters (m : Machine) (q : jsstring) (f : Filters) :
  reachable m -> debounceTimer m = Some (q, f) ->
  blank q = false
  /\ f = filters (ui m)
  /\ (calls <$> step m TimerFires)
     = Some (calls m ++ [{| call_query := q;
                            call_filters := searchFilters (filters (ui m)) 1 |}]).
Proof.
  intros Hr Ht. destruct (reachable_calls m Hr) as [Htc _].
  destruct (Htc q f Ht) as (Hq & -> & _).
  split; [done|]. split; [done|]. simpl. by rewrite Ht.
Qed.

Lemma auto_search_uses_selected_filters_witness :
  (calls <$> step Scenarios.after_filtering TimerFires)
  = Some (calls Scenarios.after_filtering
          ++ [{| call_query := lit "ethics";
                 call_filters :=
                   searchFilters (filters (ui Scenarios.after_filtering)) 1 |}]).
Proof.
  apply (auto_search_uses_selected_filters Scenarios.after_filtering
           (lit "ethics") {| subject := []; year := lit "2021" |}).
  - apply (run_reachable Scenarios.filtering mount); [constructor | reflexivity].
  - reflexivity.
Defined.

(** X6: a change of filters while no results are shown, or while the query
    is blank, leaves no auto-search pending: it arms no timer and cancels
    the one that was armed. *)
Theorem filter_change_without_results_arms_nothing (m : Machine) (f : Filters) :
  reachable m -> f <> filters (ui m) ->
  results (ui m) = [] \/ blank (query (ui m)) = true ->
  debounceTimer (change_filters f m) = None
  /\ calls (change_filters f m) = calls m.
Proof.
  intros Hr Hf Hguard. destruct (reachable_calls m Hr) as [Htc _].
  unfold change_filters. rewrite bool_decide_eq_false_2 by done.
  unfold rerun_effect. cbn [ui with_ui query results setFilters
                             cleanup debounceTimer isAutoSearchingRef].
  assert (truthy (VStr (trim (query (ui m))))
          && (0 <? Z.of_nat (length (results (ui m)))) = false) as Hg.
  { destruct Hguard as [-> | Hb]; [by rewrite andb_false_r|].
    rewrite <- not_trim_blank in Hb. apply negb_true_iff in Hb.
    by rewrite Hb. }
  rewrite Hg. cbn [andb calls debounceTimer]. split; [|done].
  destruct (cleanup m) eqn:Ec; [done|].
  destruct (debounceTimer m) as [[q f']|] eqn:Et; [|done].
  destruct (Htc q f' Et) as (_ & _ & ?). congruence.
Qed.

Lemma filter_change_without_results_arms_nothing_witness :
  debounceTimer (change_filters {| subject := []; year := lit "2020" |} mount) = None
  /\ calls (change_filters {| subject := []; year := lit "2020" |} mount) = calls mount.
Proof.
  apply (filter_change_without_results_arms_nothing mount
           {| subject := []; year := lit "2020" |}).
  - constructor.
  - discriminate.
  - left. reflexivity.
Defined.

(** ** The panels of the page *)

(** X7: the introduction, the "No AI matches found" panel and the
    pagination controls exclude one another; and the "No AI matches found"
    panel comes up as soon as any text is typed on a page without results
    that is not loading, without any call having been made for it. *)
Theorem no_matches_panel_needs_no_search (m : Machine) (text : jsstring) :
  results (ui m) = [] -> loading (ui m) = false -> text <> [] ->
  (forall s : PageState,
      PYQSearchPageView.no_matches_visible s && PYQSearchPageView.intro_visible s = false
      /\ PYQSearchPageView.no_matches_visible s && pagination_visible s = false
      /\ PYQSearchPageView.intro_visible s && pagination_visible s = false)
  /\ (exists m', step m (TypeQuery text) = Some m'
                 /\ PYQSearchPageView.no_matches_visible (ui m') = true
                 /\ calls m' = calls m).
Proof.
  intros Hres Hload Htext. split.
  - intros s. unfold PYQSearchPageView.no_matches_visible,
      PYQSearchPageView.intro_visible, pagination_visible.
    destruct (loading s), (truthy (VStr (query s))); simpl;
      destruct (length (results s)); simpl; try done.
  - eexists. split; [reflexivity|]. split; [|done].
    unfold PYQSearchPageView.no_matches_visible. simpl.
    rewrite Hres, Hload. simpl. by rewrite bool_decide_eq_false_2.
Qed.

Lemma no_matches_panel_needs_no_search_witness :
  exists m', step mount (TypeQuery (lit "e")) = Some m'
             /\ PYQSearchPageView.no_matches_visible (ui m') = true
             /\ calls m' = calls mount.
Proof.
  destruct (no_matches_panel_needs_no_search mount (lit "e")) as [_ H];
    [reflexivity | reflexivity | discriminate | exact H].
Defined.

(** * The session: interceptors and AuthContext *)

Section Includes.

Import Interceptors.

Lemma startsWith_spec s sub :
  startsWith s sub = true <-> exists post, s = sub ++ post.
Proof.
  revert s. induction sub as [|c sub IH]; intros s; simpl.
  - split; [intros _; by exists s|intros _; by destruct s].
  - destruct s as [|d s]; simpl.
    + split; [done|]. by intros (post & ?).
    + rewrite andb_true_iff, N.eqb_eq, IH. split.
      * intros (-> & post & ->). by exists post.
      * intros (post & [= -> ->]). split; [done|by exists post].
Qed.

Lemma includes_spec s sub :
  includes s sub = true <-> exists pre post, s = pre ++ sub ++ post.
Proof.
  induction s as [|d s IH]; cbn [includes].
  - rewrite orb_false_r, startsWith_spec. split.
    + intros (post & ->). by exists [], post.
    + intros (pre & post & H). destruct pre; simpl in H.
      * by exists post.
      * done.
  - rewrite orb_true_iff, startsWith_spec, IH. split.
    + intros [(post & ->) | (pre & post & ->)].
      * by exists [], post.
      * by exists (d :: pre), post.
    + intros (pre & post & H). destruct pre as [|d' pre]; simpl in H.
      * left. by exists post.
      * right. injection H as -> ->. by exists pre, post.
Qed.

Lemma onRequest_without_token b config :
  localStorage b !! "access_token" = None -> onRequest b config = config.
Proof. intros H. unfold onRequest. by rewrite H. Qed.

Lemma onRequest_with_token b config (token : jsstring) :
  localStorage b !! "access_token" = Some token -> token <> [] ->
  onRequest b config
  = {| url := url config;
       headers := <["Authorization" := lit "Bearer " ++ token]> (headers config) |}.
Proof.
  intros H Ht. unfold onRequest. rewrite H. simpl.
  by rewrite bool_decide_eq_false_2.
Qed.

Lemma onResponseError_auth_url error b u part :
  config_url error = Some u -> includes u part = true ->
  part = lit "/auth/login" \/ part = lit "/auth/register" ->
  onResponseError error b = b.
Proof.
  intros Hu Hi Hpart. unfold onResponseError, url_lacks. rewrite Hu.
  destruct Hpart as [-> | ->]; rewrite Hi; simpl;
    by rewrite ?andb_false_r.
Qed.

End Includes.

(** X8: a 401 on a request whose url contains neither [/auth/login] nor
    [/auth/register] ends the session: the token and the saved user are
    removed from localStorage (every other key is kept), the browser is
    sent to [/login], and from then on the request interceptor adds no
    Authorization header. *)
Theorem unauthorized_ends_session
    (error : Interceptors.AxiosError) (b : Interceptors.Browser)
    (config : Interceptors.RequestConfig) :
  Interceptors.response_status error = Some 401 ->
  Interceptors.url_lacks error (lit "/auth/login") = true ->
  Interceptors.url_lacks error (lit "/auth/register") = true ->
  let b' := Interceptors.onResponseError error b in
  Interceptors.localStorage b' !! "access_token" = None
  /\ Interceptors.localStorage b' !! "user" = None
  /\ (forall k : string, k <> "access_token"%string -> k <> "user"%string ->
      Interceptors.localStorage b' !! k = Interceptors.localStorage b !! k)
  /\ Interceptors.href b' = lit "/login"
  /\ Interceptors.onRequest b' config = config.
Proof.
  intros Hs Hl Hr. cbv zeta. unfold Interceptors.onResponseError.
  rewrite Hs, Hl, Hr, bool_decide_eq_true_2 by done. simpl.
  assert (delete "user" (delete "access_token" (Interceptors.localStorage b))
          !! "access_token" = None) as Htok.
  { rewrite lookup_delete_ne by done. apply lookup_delete_eq. }
  repeat split.
  - exact Htok.
  - apply lookup_delete_eq.
  - intros k Hk1 Hk2. by rewrite !lookup_delete_ne.
  - by apply onRequest_without_token.
Qed.

Lemma unauthorized_ends_session_witness :
  Interceptors.onRequest
    (Interceptors.onResponseError
       (Interceptors.as_error (lit "/pyqs/search") (HttpStatus 401))
       {| Interceptors.localStorage := {[ "access_token"%string := lit "abc" ]};
          Interceptors.href := lit "/pyq-search" |})
    {| Interceptors.url := Some (lit "/pyqs/search");
       Interceptors.headers := AuthContext.json_headers |}
  = {| Interceptors.url := Some (lit "/pyqs/search");
       Interceptors.headers := AuthContext.json_headers |}.
Proof.
  apply (unauthorized_ends_session
           (Interceptors.as_error (lit "/pyqs/search") (HttpStatus 401)));
    reflexivity.
Defined.

(** X9: an error that is not a 401, and a 401 on a request whose url
    contains [/auth/login] or [/auth/register] anywhere, leave localStorage
    and the location exactly as they were. *)
Theorem other_errors_keep_session
    (error : Interceptors.AxiosError) (b : Interceptors.Browser) :
  Interceptors.response_status error <> Some 401
  \/ (exists u pre post,
        Interceptors.config_url error = Some u
        /\ (u = pre ++ lit "/auth/login" ++ post
            \/ u = pre ++ lit "/auth/register" ++ post)) ->
  Interceptors.onResponseError error b = b.
Proof.
  intros [Hs | (u & pre & post & Hu & [-> | ->])].
  - unfold Interceptors.onResponseError. by rewrite bool_decide_eq_false_2.
  - apply (onResponseError_auth_url _ _ _ (lit "/auth/login") Hu); [|by left].
    apply includes_spec. by exists pre, post.
  - apply (onResponseError_auth_url _ _ _ (lit "/auth/register") Hu); [|by right].
    apply includes_spec. by exists pre, post.
Qed.

Lemma other_errors_keep_session_witness :
  Interceptors.onResponseError
    (Interceptors.as_error (lit "/auth/login") (HttpStatus 401))
    {| Interceptors.localStorage := {[ "access_token"%string := lit "abc" ]};
       Interceptors.href := lit "/login" |}
  = {| Interceptors.localStorage := {[ "access_token"%string := lit "abc" ]};
       Interceptors.href := lit "/login" |}.
Proof.
  apply (other_errors_keep_session
           (Interceptors.as_error (lit "/auth/login") (HttpStatus 401))).
  right. exists (lit "/auth/login"), [], []. split; [reflexivity|].
  left. reflexivity.
Defined.

Section Session.

Variable stringify : Types.User -> jsstring.
Variable parse : jsstring -> option Types.User.

Lemma send_failure_on_login {A}
    (network : Interceptors.RequestConfig -> ApiError + A) hs b e :
  network (Interceptors.onRequest b
             {| Interceptors.url := Some (lit "/auth/login");
                Interceptors.headers := hs |}) = inl e ->
  Interceptors.send network (lit "/auth/login") hs b = (b, inl e).
Proof.
  intros H. unfold Interceptors.send. rewrite H. f_equal.
  apply other_errors_keep_session. right.
  exists (lit "/auth/login"), [], []. split; [done|by left].
Qed.

End Session.

(** X10: after a successful login that returns a non-empty token the user
    is authenticated and every later request leaves the request
    interceptor with the header [Authorization: Bearer <token>], whatever
    was stored before; after [logout] the user is no longer authenticated
    and requests pass the interceptor unchanged. *)
Theorem login_then_logout
    (stringify : Types.User -> jsstring)
    (network : Interceptors.RequestConfig -> ApiError + Types.AuthResponse)
    (w : Interceptors.Browser * AuthContext.AuthState)
    (response : Types.AuthResponse) (config : Interceptors.RequestConfig) :
  network (Interceptors.onRequest w.1
             {| Interceptors.url := Some (lit "/auth/login");
                Interceptors.headers := AuthContext.form_headers |})
  = inr response ->
  Types.access_token response <> [] ->
  let after := AuthContext.login stringify network w in
  after.2 = Returned
  /\ AuthContext.isAuthenticated after.1.2 = true
  /\ Interceptors.headers (Interceptors.onRequest after.1.1 config) !! "Authorization"
     = Some (lit "Bearer " ++ Types.access_token response)
  /\ AuthContext.isAuthenticated (AuthContext.logout after.1).2 = false
  /\ Interceptors.onRequest (AuthContext.logout after.1).1 config = config.
Proof.
  intros Hnet Htok. cbv zeta.
  unfold AuthContext.login, Interceptors.send. rewrite Hnet. cbn [fst snd].
  split; [done|]. split; [done|]. split; [|split; [done|]].
  - erewrite onRequest_with_token; [|by simpl; rewrite lookup_insert_ne, lookup_insert_eq|done].
    simpl. apply lookup_insert_eq.
  - apply onRequest_without_token. simpl.
    rewrite lookup_delete_ne by done. apply lookup_delete_eq.
Qed.

(** X11: a failed login, whatever the error (a 401 included), changes
    neither localStorage nor the location nor the user, and is thrown
    again to the caller. *)
Theorem failed_login_changes_nothing
    (stringify : Types.User -> jsstring)
    (network : Interceptors.RequestConfig -> ApiError + Types.AuthResponse)
    (w : Interceptors.Browser * AuthContext.AuthState) (e : ApiError) :
  network (Interceptors.onRequest w.1
             {| Interceptors.url := Some (lit "/auth/login");
                Interceptors.headers := AuthContext.form_headers |})
  = inl e ->
  AuthContext.login stringify network w = (w.1, w.2, Threw e).
Proof.
  intros Hnet. unfold AuthContext.login.
  by rewrite (send_failure_on_login _ _ _ _ Hnet).
Qed.

Lemma login_then_logout_witness :
  Interceptors.headers
    (Interceptors.onRequest
       (AuthContext.login SessionSamples.show SessionSamples.accepts
          (SessionSamples.signed_out, AuthContext.initial)).1.1
       SessionSamples.any_request) !! "Authorization"
  = Some (lit "Bearer abc")
  /\ Interceptors.onRequest
       (AuthContext.logout
          (AuthContext.login SessionSamples.show SessionSamples.accepts
             (SessionSamples.signed_out, AuthContext.initial)).1).1
       SessionSamples.any_request
     = SessionSamples.any_request.
Proof.
  destruct (login_then_logout SessionSamples.show SessionSamples.accepts
              (SessionSamples.signed_out, AuthContext.initial)
              {| Types.access_token := lit "abc"; Types.token_type := lit "bearer";
                 Types.user := SessionSamples.alice |}
              SessionSamples.any_request)
    as (_ & _ & Hhdr & _ & Hout); [reflexivity | discriminate |].
  split; [exact Hhdr | exact Hout].
Defined.

Lemma failed_login_changes_nothing_witness :
  AuthContext.login SessionSamples.show SessionSamples.refuses
    (SessionSamples.signed_in, AuthContext.initial)
  = (SessionSamples.signed_in, AuthContext.initial, Threw (HttpStatus 401)).
Proof.
  apply (failed_login_changes_nothing SessionSamples.show SessionSamples.refuses
           (SessionSamples.signed_in, AuthContext.initial) (HttpStatus 401)).
  reflexivity.
Defined.

Section InitializeAuth.

Lemma clear_session_lookup b :
  Interceptors.localStorage (AuthContext.clear_session b) !! "access_token" = None
  /\ Interceptors.localStorage (AuthContext.clear_session b) !! "user" = None.
Proof.
  unfold AuthContext.clear_session. simpl. split.
  - rewrite lookup_delete_ne by done. apply lookup_delete_eq.
  - apply lookup_delete_eq.
Qed.

End InitializeAuth.

(** X12: when [initializeAuth] has run on a freshly mounted provider,
    loading has ended. The user is authenticated only if localStorage held
    a non-empty token and a saved user that parses to a truthy value, and
    the server accepted [GET /auth/me] sent with that token as bearer; the
    browser is then as it was. A stored session (token and saved user both
    non-empty) whose saved user does not parse, or whose check fails, ends
    with the token and the saved user removed from localStorage and nobody
    authenticated; one whose saved user parses to a falsy value while the
    check passes ends with nobody authenticated and the browser, both keys
    included, as it was. *)
Theorem initializeAuth_outcome
    (parse : jsstring -> AuthContext.Parsed)
    (network : Interceptors.RequestConfig -> ApiError + Types.User)
    (b : Interceptors.Browser) :
  let w' := AuthContext.initializeAuth parse network (b, AuthContext.initial) in
  let check token :=
    network {| Interceptors.url := Some (lit "/auth/me");
               Interceptors.headers :=
                 <["Authorization" := lit "Bearer " ++ token]>
                   AuthContext.json_headers |} in
  AuthContext.loading w'.2 = false
  /\ (AuthContext.isAuthenticated w'.2 = true ->
      w'.1 = b
      /\ exists (token saved : jsstring) (u : Types.User),
           Interceptors.localStorage b !! "access_token" = Some token
           /\ token <> []
           /\ Interceptors.localStorage b !! "user" = Some saved
           /\ parse saved = AuthContext.ParsedUser u
           /\ AuthContext.user w'.2 = Some u
           /\ exists r, check token = inr r)
  /\ (forall token saved : jsstring,
        Interceptors.localStorage b !! "access_token" = Some token ->
        Interceptors.localStorage b !! "user" = Some saved ->
        token <> [] -> saved <> [] ->
        (parse saved = AuthContext.ParseError \/ (exists e, check token = inl e) ->
         AuthContext.isAuthenticated w'.2 = false
         /\ Interceptors.localStorage w'.1 !! "access_token" = None
         /\ Interceptors.localStorage w'.1 !! "user" = None)
        /\ (parse saved = AuthContext.ParsedFalsy -> (exists r, check token = inr r) ->
            AuthContext.isAuthenticated w'.2 = false /\ w'.1 = b)).
Proof.
  cbv zeta. unfold AuthContext.initializeAuth. cbn [fst snd].
  destruct (Interceptors.localStorage b !! "access_token") as [token|] eqn:Et;
    [|by repeat split].
  destruct (Interceptors.localStorage b !! "user") as [saved|] eqn:Eu;
    [|by repeat split].
  destruct (truthy (VStr token)) eqn:Ett; cbn [andb].
  2:{ split; [done|]. split; [done|]. intros t sv [= <-] _ Ht _.
      simpl in Ett. rewrite bool_decide_eq_false_2 in Ett; done. }
  destruct (truthy (VStr saved)) eqn:Ets; cbn [andb].
  2:{ split; [done|]. split; [done|]. intros t sv _ [= <-] _ Hs.
      simpl in Ets. rewrite bool_decide_eq_false_2 in Ets; done. }
  assert (token <> []) as Htok.
  { intros ->. done. }
  unfold Interceptors.send.
  rewrite (onRequest_with_token b _ token Et Htok).
  cbn [Interceptors.url Interceptors.headers].
  destruct (parse saved) as [| |u] eqn:Ep.
  - split; [done|]. split; [done|]. intros t sv [= <-] [= <-] _ _.
    split; [|by rewrite Ep].
    intros _. split; [done|]. apply clear_session_lookup.
  - destruct (network _) as [e|r] eqn:En; cbn [fst snd].
    + split; [done|]. split; [done|]. intros t sv [= <-] [= <-] _ _.
      split; [|intros _ [r Hr]; by rewrite En in Hr].
      intros _. split; [done|]. apply clear_session_lookup.
    + split; [done|]. split; [done|]. intros t sv [= <-] [= <-] _ _.
      split; [|done].
      intros [H|[e He]]; [by rewrite Ep in H|by rewrite En in He].
  - destruct (network _) as [e|r] eqn:En; cbn [fst snd].
    + split; [done|]. split; [done|]. intros t sv [= <-] [= <-] _ _.
      split; [|by rewrite Ep].
      intros _. split; [done|]. apply clear_session_lookup.
    + split; [done|]. split.
      * intros _. split; [done|].
        exists token, saved, u. repeat split; try done. by exists r.
      * intros t sv [= <-] [= <-] _ _. split; [|by rewrite Ep].
        intros [H|[e He]]; [by rewrite Ep in H|by rewrite En in He].
Qed.

Lemma initializeAuth_outcome_witness :
  (AuthContext.initializeAuth SessionSamples.read SessionSamples.checks_token
     (SessionSamples.signed_in, AuthContext.initial)).1
  = SessionSamples.signed_in
  /\ (AuthContext.initializeAuth SessionSamples.read SessionSamples.checks_token
        (SessionSamples.saved_null, AuthContext.initial)).1
     = SessionSamples.saved_null
  /\ Interceptors.localStorage
       (AuthContext.initializeAuth SessionSamples.read SessionSamples.checks_token
          (SessionSamples.stale_token, AuthContext.initial)).1 !! "access_token"
     = None.
Proof.
  split; [|split].
  - destruct (initializeAuth_outcome SessionSamples.read SessionSamples.checks_token
                SessionSamples.signed_in) as (_ & Hauth & _).
    apply Hauth. reflexivity.
  - destruct (initializeAuth_outcome SessionSamples.read SessionSamples.checks_token
                SessionSamples.saved_null) as (_ & _ & Hstored).
    destruct (Hstored (lit "abc") (lit "null")) as [_ Hfalsy];
      [reflexivity | reflexivity | discriminate | discriminate |].
    apply Hfalsy; [reflexivity|]. by exists SessionSamples.alice.
  - destruct (initializeAuth_outcome SessionSamples.read SessionSamples.checks_token
                SessionSamples.stale_token) as (_ & _ & Hstored).
    destruct (Hstored (lit "old") (SessionSamples.show SessionSamples.alice))
      as [Hcleared _];
      [reflexivity | reflexivity | discriminate | discriminate |].
    apply Hcleared. right. by exists (HttpStatus 401).
Defined.

(** * The second copy of the service *)

(** X13: the copy of [searchPYQs] that sends the page forwards the page
    [handleSearch] asks for, so requests for different pages differ; left
    out, or given as 0, the page is sent as 1. *)
Theorem second_copy_sends_the_page
    (now : Z) (q : jsstring) (f : Filters) (p1 p2 : Z) :
  1 <= p1 -> 1 <= p2 ->
  get (ApiServiceWithPage.searchRequest now q (Some (searchFilters f p1))) "page"
  = VNum (JNum p1)
  /\ (ApiServiceWithPage.searchRequest now q (Some (searchFilters f p1))
      = ApiServiceWithPage.searchRequest now q (Some (searchFilters f p2)) ->
      p1 = p2)
  /\ get (ApiServiceWithPage.searchRequest now q (Some (searchFilters f 0))) "page"
     = VNum (JNum 1)
  /\ get (ApiServiceWithPage.searchRequest now q None) "page" = VNum (JNum 1).
Proof.
  intros H1 H2.
  assert (forall p, 1 <= p ->
            get (ApiServiceWithPage.searchRequest now q (Some (searchFilters f p)))
              "page" = VNum (JNum p)) as Hpage.
  { intros p Hp. apply searchPYQs_with_page_sends_page. lia. }
  split; [by apply Hpage|]. split; [|split].
  - intros Heq. apply (f_equal (fun o => get o "page")) in Heq.
    rewrite !Hpage in Heq by done. by injection Heq.
  - unfold ApiServiceWithPage.searchRequest. simpl get_opt.
    by rewrite searchFilters_page.
  - reflexivity.
Qed.

Lemma second_copy_sends_the_page_witness :
  get (ApiServiceWithPage.searchRequest 1700000000 (lit "ethics")
         (Some (searchFilters {| subject := []; year := [] |} 2))) "page"
  = VNum (JNum 2).
Proof.
  destruct (second_copy_sends_the_page 1700000000 (lit "ethics")
              {| subject := []; year := [] |} 2 1) as (Hpage & _); [lia | lia |].
  exact Hpage.
Defined.

(** X14: the two copies of [searchPYQs] build the same body apart from the
    page and the time stamp: without those two keys, the body of the second
    copy is the body of the first, key for key and in the same order. *)
Theorem copies_agree_apart_from_page
    (now : Z) (q : jsstring) (filters : option jsobject) :
  without_keys ["page"; "timestamp"]%string
    (ApiServiceWithPage.searchRequest now q filters)
  = ApiService.searchRequest q filters.
Proof.
  unfold ApiServiceWithPage.searchRequest, ApiService.searchRequest, spread_and.
  by destruct (truthy (get_opt filters "subject")),
              (truthy (get_opt filters "year")).
Qed.

(** ** Chat history of one conversation *)

Section SliceTo.

Context {A : Type}.
Implicit Types l : list A.

Lemma slice_to_sublist l end_ : sublist (ChatApi.slice_to l end_) l.
Proof. unfold ChatApi.slice_to. apply sublist_take. Qed.

Lemma slice_to_length l z :
  0 <= z -> Z.of_nat (length (ChatApi.slice_to l (JNum z))) <= z.
Proof.
  intros Hz. unfold ChatApi.slice_to.
  assert ((z <? 0) = false) as -> by lia.
  rewrite length_take. lia.
Qed.

Lemma slice_to_all l z :
  Z.of_nat (length l) <= z -> ChatApi.slice_to l (JNum z) = l.
Proof.
  intros Hz. unfold ChatApi.slice_to.
  assert ((z <? 0) = false) as -> by lia.
  apply take_ge. lia.
Qed.

End SliceTo.

(** X15: [getConversationMessages] always fetches the history with
    [limit=200], whatever limit it was given; what it returns is, in the
    order of that history, messages of the requested conversation only, at
    most [limit] of them for a limit that is not negative (50 when left
    out), and all of the conversation's messages in that history when the
    limit is not below their number. A failed fetch is passed on. *)
Theorem getConversationMessages_filters_history
    (get : ChatApi.Get (list ChatApi.ChatMessage))
    (conversationId : jsstring) (limit : option jsnum) :
  match get (lit "/chat/history?limit=200") with
  | inl e => ChatApi.getConversationMessages get conversationId limit = inl e
  | inr response =>
      exists msgs,
        ChatApi.getConversationMessages get conversationId limit = inr msgs
        /\ sublist msgs (data response)
        /\ Forall (fun msg => ChatApi.conversation_uuid msg = Some conversationId) msgs
        /\ (forall z, default (JNum 50) limit = JNum z -> 0 <= z ->
            Z.of_nat (length msgs) <= z
            /\ (Z.of_nat (length (List.filter
                                    (ChatApi.same_conversation conversationId)
                                    (data response))) <= z ->
                msgs = List.filter (ChatApi.same_conversation conversationId)
                         (data response)))
  end.
Proof.
  unfold ChatApi.getConversationMessages, ChatApi.getChatHistory.
  change (lit "/chat/history?limit=" ++
          ChatApi.template_number (default (JNum 50) (Some (JNum 200))))
    with (lit "/chat/history?limit=200").
  destruct (get _) as [e|response]; [done|].
  eexists. split; [reflexivity|]. split; [|split].
  - etrans; [apply slice_to_sublist|].
    induction (data response) as [|x l IH]; simpl; [done|].
    destruct (ChatApi.same_conversation conversationId x);
      by constructor.
  - unfold ChatApi.slice_to. apply Forall_take.
    apply Forall_forall. intros msg Hin.
    apply list_elem_of_In, filter_In in Hin as [_ Hin].
    by apply bool_decide_eq_true in Hin.
  - intros z -> Hz. split; [by apply slice_to_length|].
    intros Hall. by apply slice_to_all.
Qed.

Lemma getConversationMessages_filters_history_witness :
  exists msgs,
    ChatApi.getConversationMessages ChatSamples.server (lit "a") (Some (JNum 2))
    = inr msgs
    /\ Z.of_nat (length msgs) <= 2.
Proof.
  pose proof (getConversationMessages_filters_history ChatSamples.server
                (lit "a") (Some (JNum 2))) as H.
  assert (ChatSamples.server (lit "/chat/history?limit=200")
          = inr {| data := ChatSamples.history; status := 200 |}) as Hs
    by reflexivity.
  rewrite Hs in H. destruct H as (msgs & Heq & _ & _ & Hlen).
  exists msgs. split; [exact Heq|].
  apply (Hlen 2); [reflexivity | lia].
Defined.

(** * The registration page *)

Section Register.

Import Json.

Lemma join_texts_strings (msgs : list jsstring) :
  join_texts (map JString msgs) = inr msgs.
Proof. induction msgs as [|m msgs IH]; simpl; [done|]. by rewrite IH. Qed.

Lemma join_values_strings sep (msgs : list jsstring) :
  join_values sep (map JString msgs) = inr (join sep msgs).
Proof. unfold join_values. by rewrite join_texts_strings. Qed.

Lemma map_messages_of_msgs items (msgs : list jsstring) :
  Forall2 (fun item m => field item "msg" = Some (JString m) /\ m <> [])
    items msgs ->
  RegisterPage.map_messages items = inr (map JString msgs).
Proof.
  induction 1 as [|item m items msgs [Hf Hm] _ IH]; simpl; [done|].
  rewrite IH. unfold RegisterPage.item_message.
  destruct item; try done. rewrite Hf. simpl.
  by rewrite bool_decide_eq_false_2.
Qed.

Lemma map_messages_null items :
  In JNull items -> RegisterPage.map_messages items = inl TypeError.
Proof.
  induction items as [|e items IH]; simpl; [done|].
  intros [-> | Hin]; [done|].
  destruct (RegisterPage.item_message e) as [[]|v]; [done|].
  by rewrite IH.
Qed.

Lemma field_is_object v k w : field v k = Some w -> exists fs, v = JObject fs.
Proof. destruct v; try done. by eexists. Qed.

Lemma field_plain v k w : plain v = true -> field v k = Some w -> plain w = true.
Proof.
  destruct v; try done. simpl. intros Hp Hf.
  apply andb_prop in Hp as [_ Hp]. rewrite forallb_forall in Hp.
  destruct (List.find _ fields) as [[k' w']|] eqn:E; [|done].
  simpl in Hf. injection Hf as ->.
  apply find_some in E as [Hin _]. by apply (Hp (k', w)).
Qed.

Lemma to_String_plain v : plain v = true -> exists text, to_String v = inr text.
Proof.
  induction v as [|b|z|s|items IH|fields _] using json_nested_ind; simpl.
  - by eexists.
  - destruct b; by eexists.
  - by eexists.
  - by eexists.
  - intros Hp.
    assert (exists ts,
              (fix texts (l : list json) : Thrown + list jsstring :=
                 match l with
                 | [] => inr []
                 | x :: l' =>
                     match (match x with JNull => inr [] | _ => to_String x end) with
                     | inl t => inl t
                     | inr text =>
                         match texts l' with
                         | inl t => inl t
                         | inr rest => inr (text :: rest)
                         end
                     end
                 end) items = inr ts) as [ts ->]; [|by eexists].
    induction IH as [|x l Hx _ IHl]; [by eexists|].
    simpl in Hp. apply andb_prop in Hp as [Hpx Hpl].
    destruct (IHl Hpl) as [ts ->].
    destruct (Hx Hpx) as [text Htext].
    destruct x; rewrite ?Htext; by eexists.
  - intros Hp. apply andb_prop in Hp as [Hown _].
    apply negb_true_iff in Hown. rewrite Hown. by eexists.
Qed.

Lemma String_value_plain e :
  plain e = true -> exists v, RegisterPage.String_value e = inr v /\ plain v = true.
Proof.
  intros Hp. unfold RegisterPage.String_value.
  destruct (to_String_plain e Hp) as [text ->]. by eexists.
Qed.

Lemma item_message_plain e :
  e <> JNull -> plain e = true ->
  exists v, RegisterPage.item_message e = inr v /\ plain v = true.
Proof.
  intros Hnull Hp. unfold RegisterPage.item_message.
  pose proof (String_value_plain e Hp) as Hs.
  destruct e; try done;
    destruct (field _ "msg") as [v|] eqn:Ev;
    try (destruct (truthy_json v);
         [exists v; split; [done|by apply (field_plain _ _ _ Hp Ev)]|]);
    destruct (field _ "message") as [w|] eqn:Ew; try done;
    (destruct (truthy_json w);
     [exists w; split; [done|by apply (field_plain _ _ _ Hp Ew)]|done]).
Qed.

Lemma map_messages_plain items :
  ~ In JNull items -> forallb plain items = true ->
  exists vs, RegisterPage.map_messages items = inr vs /\ forallb plain vs = true.
Proof.
  induction items as [|e items IH]; simpl; [by eexists|].
  intros Hnull Hp. apply andb_prop in Hp as [Hpe Hpl].
  destruct (item_message_plain e) as (v & -> & Hv); [intros ->; tauto|done|].
  destruct IH as (vs & -> & Hvs); [tauto|done|].
  exists (v :: vs). split; [done|]. simpl. by rewrite Hv, Hvs.
Qed.

Lemma classic_in_null (items : list json) : In JNull items \/ ~ In JNull items.
Proof.
  induction items as [|e items [IH|IH]]; simpl;
    [right; intros []|left; by right|].
  destruct e; try (right; intros [H|H]; [discriminate H|done]).
  left. by left.
Qed.

Lemma join_texts_plain vs :
  forallb plain vs = true -> exists ts, join_texts vs = inr ts.
Proof.
  induction vs as [|v vs IH]; simpl; [by eexists|].
  intros Hp. apply andb_prop in Hp as [Hpv Hpl].
  destruct (IH Hpl) as [ts ->].
  destruct (to_String_plain v Hpv) as [text Htext].
  unfold join_text. destruct v; rewrite ?Htext; by eexists.
Qed.

End Register.

(** X16: when the two passwords differ, [handleSubmit] does not call
    [register] and does not navigate; it shows "Passwords do not match",
    ends loading and keeps the form as typed. *)
Theorem mismatched_passwords_are_not_sent
    (register : RegisterPage.RegisterRequest -> RegisterPage.Failure + unit)
    (s : RegisterPage.PageState) :
  RegisterPage.password (RegisterPage.formData s)
  <> RegisterPage.confirmPassword (RegisterPage.formData s) ->
  RegisterPage.handleSubmit register s
  = {| RegisterPage.final :=
         {| RegisterPage.formData := RegisterPage.formData s;
            RegisterPage.showPassword := RegisterPage.showPassword s;
            RegisterPage.loading := false;
            RegisterPage.error := Json.JString (lit "Passwords do not match") |};
       RegisterPage.registered := [];
       RegisterPage.navigated := None;
       RegisterPage.thrown := None |}.
Proof.
  intros H. unfold RegisterPage.handleSubmit.
  by rewrite bool_decide_eq_false_2.
Qed.

Lemma mismatched_passwords_are_not_sent_witness :
  RegisterPage.registered
    (RegisterPage.handleSubmit RegisterSamples.succeeds
       (RegisterSamples.filled "secret1" "secret2")) = [].
Proof.
  rewrite (mismatched_passwords_are_not_sent RegisterSamples.succeeds
             (RegisterSamples.filled "secret1" "secret2")); [reflexivity|].
  discriminate.
Defined.

(** X17: [handleSubmit] always ends with loading off and the form as
    typed, and calls [register] at most once; it navigates exactly when
    the passwords agree and [register] succeeded on the form's values, and
    then to [/login] with the typed email, the error cleared. *)
Theorem registration_navigates_only_on_success
    (register : RegisterPage.RegisterRequest -> RegisterPage.Failure + unit)
    (s : RegisterPage.PageState) :
  let o := RegisterPage.handleSubmit register s in
  let form := RegisterPage.formData s in
  let request :=
    {| RegisterPage.req_email := RegisterPage.email form;
       RegisterPage.req_password := RegisterPage.password form;
       RegisterPage.req_first_name := RegisterPage.first_name form;
       RegisterPage.req_last_name := RegisterPage.last_name form |} in
  RegisterPage.loading (RegisterPage.final o) = false
  /\ RegisterPage.formData (RegisterPage.final o) = form
  /\ (RegisterPage.registered o = [] \/ RegisterPage.registered o = [request])
  /\ (is_Some (RegisterPage.navigated o)
      <-> RegisterPage.password form = RegisterPage.confirmPassword form
          /\ register request = inr tt)
  /\ (forall nav, RegisterPage.navigated o = Some nav ->
      RegisterPage.to nav = lit "/login"
      /\ RegisterPage.state_email nav = RegisterPage.email form
      /\ RegisterPage.error (RegisterPage.final o) = Json.JString []).
Proof.
  cbv zeta. unfold RegisterPage.handleSubmit.
  case_bool_decide as Hpw; simpl.
  - destruct (register _) as [failure|[]] eqn:Er.
    + destruct (RegisterPage.errorMessage _ _) as [t|message]; simpl;
        (split; [done|]; split; [done|]; split; [by right|]; split; [|done]);
        (split; [by intros [? ?]|by intros [_ ?]]).
    + simpl. split; [done|]. split; [done|]. split; [by right|].
      split; [by split|]. by intros nav [= <-].
  - split; [done|]. split; [done|]. split; [by left|].
    split; [|done]. split; [by intros [? ?]|by intros [? _]].
Qed.

Lemma registration_navigates_only_on_success_witness :
  exists nav,
    RegisterPage.navigated
      (RegisterPage.handleSubmit RegisterSamples.succeeds
         (RegisterSamples.filled "secret1" "secret1")) = Some nav
    /\ RegisterPage.state_email nav = lit "alice@example.org".
Proof.
  destruct (registration_navigates_only_on_success RegisterSamples.succeeds
              (RegisterSamples.filled "secret1" "secret1"))
    as (_ & _ & _ & Hiff & Hnav).
  destruct (proj2 Hiff) as [nav Hsome]; [by split|].
  exists nav. split; [exact Hsome|]. by apply Hnav.
Defined.

(** X18: for a failure whose payload has a [detail] list of items that
    each carry a non-empty [msg] string, the message shown is those
    strings joined by ", "; with an empty list it is the empty string, so
    that the error box, rendered only for a truthy error, stays hidden
    although the registration failed. *)
Theorem validation_messages_are_joined
    (dflt : jsstring) (d : Json.json) (items : list Json.json)
    (msgs : list jsstring) :
  Json.field d "detail" = Some (Json.JArray items) ->
  Forall2 (fun item m => Json.field item "msg" = Some (Json.JString m) /\ m <> [])
    items msgs ->
  RegisterPage.errorMessage dflt (Some d)
  = inr (Json.JString (Json.join (lit ", ") msgs))
  /\ (items = [] ->
      forall register s,
        RegisterPage.password (RegisterPage.formData s)
        = RegisterPage.confirmPassword (RegisterPage.formData s) ->
        (forall request,
            register request = inl {| RegisterPage.response_data := Some d |}) ->
        RegisterPage.error_visible
          (RegisterPage.final (RegisterPage.handleSubmit register s)) = false
        /\ RegisterPage.navigated (RegisterPage.handleSubmit register s) = None).
Proof.
  intros Hd Hitems.
  assert (RegisterPage.errorMessage dflt (Some d)
          = inr (Json.JString (Json.join (lit ", ") msgs))) as Hmsg.
  { destruct (field_is_object _ _ _ Hd) as [fs ->].
    unfold RegisterPage.errorMessage. cbn [Json.truthy_json negb].
    rewrite Hd. cbn [Json.truthy_json].
    rewrite (map_messages_of_msgs _ _ Hitems).
    by rewrite join_values_strings. }
  split; [done|]. intros -> register s Hpw Hreg.
  apply Forall2_nil_inv_l in Hitems as ->.
  unfold RegisterPage.handleSubmit.
  rewrite bool_decide_eq_true_2 by done. cbn [negb].
  rewrite Hreg. cbn [RegisterPage.response_data].
  destruct (field_is_object _ _ _ Hd) as [fs ->].
  unfold RegisterPage.errorMessage. cbn [Json.truthy_json negb].
  by rewrite Hd.
Qed.

Lemma validation_messages_are_joined_witness :
  RegisterPage.errorMessage RegisterPage.defaultMessage
    (Some RegisterSamples.validation_failure)
  = inr (Json.JString
           (lit "value is not a valid email address, field required")).
Proof.
  destruct (validation_messages_are_joined RegisterPage.defaultMessage
              RegisterSamples.validation_failure RegisterSamples.validation_items
              [lit "value is not a valid email address"; lit "field required"])
    as [Hmsg _].
  - reflexivity.
  - repeat constructor; discriminate.
  - exact Hmsg.
Defined.

(** X19: computing the message throws (a TypeError, so that no error is
    set at all) whenever the payload has a [detail] list that contains
    [null]; and it throws only if the payload has a [detail] that is a list
    containing [null] or that holds, at some depth, an object with a
    [toString] key of its own. For every other payload, or none, a message
    results. *)
Theorem errorMessage_throws_on_null_or_own_toString
    (dflt : jsstring) (data : option Json.json) :
  (forall d items,
      data = Some d ->
      Json.field d "detail" = Some (Json.JArray items) ->
      In Json.JNull items ->
      RegisterPage.errorMessage dflt data = inl Json.TypeError)
  /\ (RegisterPage.errorMessage dflt data = inl Json.TypeError ->
      exists d detail,
        data = Some d
        /\ Json.field d "detail" = Some detail
        /\ ((exists items, detail = Json.JArray items /\ In Json.JNull items)
            \/ Json.plain detail = false)).
Proof.
  split.
  - intros d items -> Hd Hin.
    destruct (field_is_object _ _ _ Hd) as [fs ->].
    unfold RegisterPage.errorMessage. cbn [Json.truthy_json negb].
    rewrite Hd. cbn [Json.truthy_json].
    by rewrite (map_messages_null _ Hin).
  - unfold RegisterPage.errorMessage.
    destruct data as [d|]; [|done].
    assert (forall detail,
              Json.field d "detail" = Some detail ->
              (if Json.truthy_json detail then
                 match detail with
                 | Json.JString text => inr (Json.JString text)
                 | Json.JArray items =>
                     match RegisterPage.map_messages items with
                     | inl t => inl t
                     | inr vs =>
                         match Json.join_values (lit ", ") vs with
                         | inl t => inl t
                         | inr text => inr (Json.JString text)
                         end
                     end
                 | _ => RegisterPage.String_value detail
                 end
               else
                 match Json.field d "message" with
                 | Some m =>
                     if Json.truthy_json m then inr m else inr (Json.JString dflt)
                 | None => inr (Json.JString dflt)
                 end) = inl Json.TypeError ->
              (exists items, detail = Json.JArray items /\ In Json.JNull items)
              \/ Json.plain detail = false) as Hdetail.
    { intros detail Hd Hthrow.
      destruct (Json.plain detail) eqn:Hp; [|by right]. left.
      destruct (Json.truthy_json detail).
      2:{ destruct (Json.field d "message") as [m|]; [|done].
          by destruct (Json.truthy_json m). }
      destruct detail as [|b|z|text|items|fields];
        try (destruct (String_value_plain _ Hp) as (v & Hv & _);
             rewrite Hv in Hthrow; done);
        [done|].
      exists items. split; [done|].
      destruct (classic_in_null items) as [Hin|Hnot]; [done|].
      destruct (map_messages_plain items Hnot Hp) as (vs & Hvs & Hpvs).
      rewrite Hvs in Hthrow. unfold Json.join_values in Hthrow.
      destruct (join_texts_plain vs Hpvs) as [ts Hts].
      by rewrite Hts in Hthrow. }
    destruct d as [|b|z|text|items|fields];
      try (simpl; intros H; by repeat case_match).
    cbn [Json.truthy_json negb].
    destruct (Json.field (Json.JObject fields) "detail") as [detail|] eqn:Ed.
    + intros Hthrow. exists (Json.JObject fields), detail.
      split; [done|]. split; [done|]. exact (Hdetail detail eq_refl Hthrow).
    + destruct (Json.field _ "message") as [m|]; [|done].
      by destruct (Json.truthy_json m).
Qed.

Lemma errorMessage_throws_on_null_or_own_toString_witness :
  RegisterPage.errorMessage RegisterPage.defaultMessage
    (Some (Json.JObject [("detail"%string, Json.JArray [Json.JNull])]))
  = inl Json.TypeError.
Proof.
  destruct (errorMessage_throws_on_null_or_own_toString RegisterPage.defaultMessage
              (Some (Json.JObject [("detail"%string, Json.JArray [Json.JNull])])))
    as [Hnull _].
  apply (Hnull (Json.JObject [("detail"%string, Json.JArray [Json.JNull])])
           [Json.JNull]); [reflexivity | reflexivity |].
  left. reflexivity.
Defined.

(** An item with a [toString] of its own and no message makes the
    computation throw although the list holds no [null]. *)
Lemma errorMessage_own_toString :
  RegisterPage.errorMessage RegisterPage.defaultMessage
    (Some (Json.JObject
             [("detail"%string,
               Json.JArray [Json.JObject [("toString"%string, Json.JNumber 1)]])]))
  = inl Json.TypeError.
Proof. reflexivity. Qed.

(** * Paging and defaults on the copy of the service that sends the page *)

(** C5, as stated, does not hold: a caller that supplies the limit 0 does
    not see it forwarded unchanged. The statement refuted is: without a
    limit the request carries 10, a supplied limit is forwarded unchanged,
    and without a page the request carries page 1. *)
Lemma zero_limit_is_not_forwarded :
  ~ (forall (now : Z) (query : jsstring) (filters : option jsobject),
        (get_opt filters "limit" = VUndef ->
         get (ApiServiceWithPage.searchRequest now query filters) "limit"
         = VNum (JNum 10))
        /\ (forall n, get_opt filters "limit" = VNum n ->
            get (ApiServiceWithPage.searchRequest now query filters) "limit"
            = VNum n)
        /\ (get_opt filters "page" = VUndef ->
            get (ApiServiceWithPage.searchRequest now query filters) "page"
            = VNum (JNum 1))).
Proof.
  intros H.
  destruct (H 1700000000 (lit "ethics") (Some [("limit", VNum (JNum 0))]))
    as (_ & Hfwd & _).
  specialize (Hfwd (JNum 0) eq_refl). discriminate Hfwd.
Qed.

(** C5, amended: when the caller supplies no limit, or a falsy one (0 or
    NaN), the request sent to the search endpoint carries limit = 10; every
    other supplied limit is forwarded unchanged; and a request omitting
    page defaults to page = 1. The limit is the same on the earlier copy of
    [searchPYQs], whose body has no page key, so that the endpoint reads
    its default, page 1. *)
Theorem searchPYQs_limit_and_page_defaults
    (now : Z) (query : jsstring) (filters : option jsobject) :
  let sent := ApiServiceWithPage.searchRequest now query filters in
  get sent "limit"
  = (if truthy (get_opt filters "limit") then get_opt filters "limit"
     else VNum (JNum 10))
  /\ (get_opt filters "limit" = VUndef -> get sent "limit" = VNum (JNum 10))
  /\ (forall z, z <> 0 -> get_opt filters "limit" = VNum (JNum z) ->
      get sent "limit" = VNum (JNum z))
  /\ (get_opt filters "limit" = VNum (JNum 0) \/ get_opt filters "limit" = VNum JNaN ->
      get sent "limit" = VNum (JNum 10))
  /\ (get_opt filters "page" = VUndef -> get sent "page" = VNum (JNum 1))
  /\ get (ApiService.searchRequest query filters) "limit" = get sent "limit"
  /\ (forall r, Backend.read_request (ApiService.searchRequest query filters) = Some r ->
      Backend.page r = 1).
Proof.
  cbv zeta.
  assert (get (ApiServiceWithPage.searchRequest now query filters) "limit"
          = js_or (get_opt filters "limit") (VNum (JNum 10))) as -> by reflexivity.
  assert (get (ApiServiceWithPage.searchRequest now query filters) "page"
          = js_or (get_opt filters "page") (VNum (JNum 1))) as -> by reflexivity.
  rewrite searchRequest_limit. unfold js_or.
  split; [done|]. split; [by intros ->|]. split; [|split; [|split; [|split]]].
  - intros z Hz ->. simpl. by destruct (Z.eqb_spec z 0).
  - by intros [-> | ->].
  - by intros ->.
  - done.
  - intros r Hr. unfold Backend.read_request, Backend.int_field in Hr.
    destruct (searchRequest_no_page query filters) as [Hpage _].
    rewrite Hpage in Hr.
    destruct (get _ "query"); try done.
    destruct (get _ "limit") as [| |[l|]]; try done;
      by injection Hr as <-.
Qed.

Lemma searchPYQs_limit_and_page_defaults_witness :
  get (ApiServiceWithPage.searchRequest 1700000000 (lit "ethics")
         (Some [("limit", VNum (JNum 25))])) "limit" = VNum (JNum 25)
  /\ get (ApiServiceWithPage.searchRequest 1700000000 (lit "ethics")
            (Some [("limit", VNum (JNum 0))])) "limit" = VNum (JNum 10)
  /\ get (ApiServiceWithPage.searchRequest 1700000000 (lit "ethics")
            (Some [("limit", VNum (JNum 25))])) "page" = VNum (JNum 1).
Proof.
  split; [|split].
  - destruct (searchPYQs_limit_and_page_defaults 1700000000 (lit "ethics")
                (Some [("limit", VNum (JNum 25))])) as (_ & _ & Hfwd & _).
    apply (Hfwd 25); [lia | reflexivity].
  - destruct (searchPYQs_limit_and_page_defaults 1700000000 (lit "ethics")
                (Some [("limit", VNum (JNum 0))])) as (_ & _ & _ & Hzero & _).
    apply Hzero. left. reflexivity.
  - destruct (searchPYQs_limit_and_page_defaults 1700000000 (lit "ethics")
                (Some [("limit", VNum (JNum 25))])) as (_ & _ & _ & _ & Hpage & _).
    apply Hpage. reflexivity.
Defined.

Section Paging.

Variable fingerprintOf : jsstring -> option jsstring -> option Z -> string.
Variable executePipeline :
  Backend.SearchRequest -> Backend.ErrorKind + list PYQSearchResult.t.

(** What the endpoint reads off the body that [handleSearch(page)] puts on
    the wire. *)
Lemma read_request_of_page (t : Z) (q : jsstring) (f : Filters) (page : Z) :
  page <> 0 ->
  Backend.read_request
    (ApiServiceWithPage.searchRequest t q (Some (searchFilters f page)))
  = Some {| Backend.query := q; Backend.subject := sent_subject f;
            Backend.year := sent_year f; Backend.page := page;
            Backend.limit := 10 |}.
Proof.
  intros Hp. unfold ApiServiceWithPage.searchRequest. simpl get_opt.
  rewrite searchFilters_limit, searchFilters_page, searchFilters_subject,
    searchFilters_year.
  unfold js_or, spread_and, sent_subject, sent_year.
  assert (truthy (VNum (JNum page)) = true) as ->
    by (simpl; by destruct (Z.eqb_spec page 0)).
  assert (truthy (VNum (JNum 10)) = true) as -> by reflexivity.
  destruct (truthy (VStr (subject f))) eqn:Es, (truthy (VStr (year f))) eqn:Ey;
    cbv iota; rewrite ?Es, ?Ey; try reflexivity;
    destruct (parseInt (year f)) as [z|]; try reflexivity;
    simpl truthy; destruct (z =? 0); reflexivity.
Qed.

(** A cache hit is answered with the window of the page asked for. *)
Lemma handleSearch_shows_window now cache (t : Z) (s : PageState) (page : Z)
    (rs : list PYQSearchResult.t) :
  blank (query s) = false -> 1 <= page ->
  Backend.results <$>
    Backend.cache_get now
      (fingerprintOf (query s) (sent_subject (filters s)) (sent_year (filters s)))
      cache = Some rs ->
  results (handleSearch
             (viaApiServiceWithPage
                (Backend.endpoint fingerprintOf executePipeline now cache) t)
             s page).1.1
  = Backend.slice rs page 10.
Proof.
  intros Hq Hpage Hhit. unfold handleSearch.
  rewrite (handleSearch_call_nonblank _ _ Hq). cbn [fst snd].
  unfold viaApiServiceWithPage, ApiServiceWithPage.searchPYQs, Backend.endpoint.
  cbn [call_query call_filters].
  rewrite String.eqb_refl. cbn [negb].
  rewrite read_request_of_page by lia.
  unfold Backend.search, Backend.validate.
  cbn [Backend.query Backend.subject Backend.year Backend.page Backend.limit].
  rewrite Hq. assert ((1 <=? page) = true) as -> by lia. cbn [negb andb Z.leb].
  change (1 ?= 10) with Lt. cbn [negb].
  destruct (Backend.cache_get _ _ _) as [entry|]; [|done].
  injection Hhit as <-. reflexivity.
Qed.

End Paging.

(** C1: pagination is transparent. For a fixed query and filters, as
    long as the server answers from the same cached result set, the page
    wired to the service that sends the page shows for page p the p-th
    window of 10 of that set: page 1 and page 2 are the first two windows,
    one after the other (together the first 20 results, each of 10 items
    when there are at least 20, with no item in common when the results
    are distinct), and the pages taken in order make up the full result
    set in its original order. *)
Theorem paging_selects_successive_windows
    (fingerprintOf : jsstring -> option jsstring -> option Z -> string)
    (executePipeline :
       Backend.SearchRequest -> Backend.ErrorKind + list PYQSearchResult.t)
    (cache : gmap string (Backend.CacheEntry PYQSearchResult.t))
    (s : PageState) (rs : list PYQSearchResult.t) :
  blank (query s) = false ->
  let key :=
    fingerprintOf (query s) (sent_subject (filters s)) (sent_year (filters s)) in
  let hit (now : Z) := Backend.results <$> Backend.cache_get now key cache = Some rs in
  let shown (now t page : Z) :=
    results (handleSearch
               (viaApiServiceWithPage
                  (Backend.endpoint fingerprintOf executePipeline now cache) t)
               s page).1.1 in
  (forall now t page, hit now -> 1 <= page ->
      shown now t page = Backend.slice rs page 10)
  /\ (forall now1 t1 now2 t2, hit now1 -> hit now2 ->
      shown now1 t1 1 ++ shown now2 t2 2 = take 20 rs
      /\ ((20 <= length rs)%nat ->
          length (shown now1 t1 1) = 10%nat /\ length (shown now2 t2 2) = 10%nat)
      /\ (NoDup rs -> forall x, x ∈ shown now1 t1 1 -> x ∉ shown now2 t2 2))
  /\ (forall now t (n : nat), hit now -> (length rs <= n * 10)%nat ->
      concat (map (fun p => shown now t (Z.of_nat p)) (seq 1 n)) = rs).
Proof.
  intros Hq. cbv zeta.
  assert (forall now t page,
            Backend.results <$>
              Backend.cache_get now
                (fingerprintOf (query s) (sent_subject (filters s))
                   (sent_year (filters s))) cache = Some rs ->
            1 <= page ->
            results (handleSearch
                       (viaApiServiceWithPage
                          (Backend.endpoint fingerprintOf executePipeline now cache) t)
                       s page).1.1
            = Backend.slice rs page 10) as Hshown.
  { intros now t page Hhit Hpage. by apply handleSearch_shows_window. }
  split; [exact Hshown|]. split.
  - intros now1 t1 now2 t2 H1 H2.
    rewrite (Hshown now1 t1 1 H1), (Hshown now2 t2 2 H2) by lia.
    assert (Backend.slice rs 1 10 = take 10 rs) as -> by reflexivity.
    assert (Backend.slice rs 2 10 = take 10 (drop 10 rs)) as -> by reflexivity.
    split; [apply (take_take_drop rs 10 10)|]. split.
    + intros Hlen. rewrite !length_take, length_drop. lia.
    + intros Hnd.
      assert (NoDup (take 10 rs ++ take 10 (drop 10 rs))) as Hboth.
      { rewrite (take_take_drop rs 10 10).
        eapply sublist_NoDup; [exact Hnd|apply sublist_take]. }
      apply NoDup_app in Hboth as (_ & Hdisjoint & _). exact Hdisjoint.
  - intros now t n Hhit Hlen.
    transitivity
      (concat (map (fun p => Backend.slice rs (Z.of_nat p) 10) (seq 1 n)));
      [|apply slice_pages_all; simpl; lia].
    f_equal. apply map_ext_in. intros p Hp. apply in_seq in Hp.
    apply Hshown; [done|lia].
Qed.

Lemma paging_selects_successive_windows_witness :
  results (handleSearch
             (viaApiServiceWithPage Samples.server25 1700000000)
             Samples.typed_ethics 1).1.1
  ++ results (handleSearch
                (viaApiServiceWithPage Samples.server25 1700000050)
                Samples.typed_ethics 2).1.1
  = take 20 (Samples.items 25).
Proof.
  destruct (paging_selects_successive_windows Samples.fingerprintOf
              Samples.pipeline_down Samples.cache25 Samples.typed_ethics
              (Samples.items 25)) as (_ & Hpages & _); [reflexivity|].
  destruct (Hpages 60 1700000000 60 1700000050) as (Happ & _);
    [reflexivity | reflexivity |].
  exact Happ.
Defined.
